(** * Pricing, promotions, checkout and order settlement of the NP Pigments store

    A shallow embedding of the pricing and settlement logic of
    [store/models.py], [store/serializers.py] and [adminpanel/views.py].

    Conventions:
    - Python [Decimal] amounts are rationals [Q]: the operations used here
      ([+], [-], [*], division by [Decimal('100')]) are exact for the field
      sizes of the models (10 digits, 2 decimals; 28-digit context).
    - [DateTimeField] values and [timezone.now()] are integer timestamps [Z].
    - Nullable fields are [option]s; the Python truth test of a nullable
      [Decimal] ([self.discount_price and ...]) is [None] or zero = false.
    - Database tables are stdpp [gmap]s keyed by primary key. *)

From Stdlib Require Import QArith Qround Qminmax ZArith Bool List String Lqa.
From stdpp Require Import base gmap fin_maps.
Import ListNotations.

Open Scope Z_scope.

(** Strict comparison of [Decimal] amounts, as a boolean. *)
Definition Qlt_bool (a b : Q) : bool := negb (Qle_bool b a).

(* ------------------------------------------------------------------ *)
(** ** Product pricing ([Perfume] / [Pigment]) *)

Module Pricing.

(** The pricing fields shared by [Perfume] and [Pigment]
    (models.py: both classes carry exactly these fields). *)
Record Product := mkProduct {
  price : Q;
  discount_percentage : Z;
  discount_price : option Q;
  discount_start_date : option Z;
  discount_end_date : option Z
}.

(** [self.discount_price and self.discount_price > 0] *)
Definition dp_positive (dp : option Q) : bool :=
  match dp with
  | Some d => Qlt_bool 0 d
  | None => false
  end.

(** [self.price * (pct / Decimal('100'))] subtracted from the price. *)
Definition percent_off (base : Q) (pct : Z) : Q :=
  let discount_amount := (base * (inject_Z pct / 100))%Q in
  (base - discount_amount)%Q.

(** The date checks at the top of [get_discounted_price]: [true] when the
    method returns [self.price] early. *)
Definition date_blocks (start end_ : option Z) (now : Z) : bool :=
  match start, end_ with
  | Some s, Some e => negb ((s <=? now) && (now <=? e))
  | Some s, None => s >? now
  | None, Some e => e <? now
  | None, None => false
  end.

(** [Perfume.get_discounted_price] (models.py 108-130);
    [Pigment.get_discounted_price] (337-359) is the same code. *)
Definition get_discounted_price (p : Product) (now : Z) : Q :=
  if date_blocks (discount_start_date p) (discount_end_date p) now
  then price p
  else if dp_positive (discount_price p)
  then match discount_price p with Some d => d | None => price p end
  else if 0 <? discount_percentage p
  then percent_off (price p) (discount_percentage p)
  else price p.

(** [Perfume.is_on_sale] (models.py 132-143); [Pigment.is_on_sale]
    (361-372) is the same code. *)
Definition is_on_sale (p : Product) (now : Z) : bool :=
  match discount_start_date p, discount_end_date p with
  | Some s, Some e => (s <=? now) && (now <=? e)
  | Some s, None => s <=? now
  | None, Some e => now <=? e
  | None, None => (0 <? discount_percentage p) || dp_positive (discount_price p)
  end.

(** The discount window as the spec words it: the current time is not
    before a set start and not after a set end. *)
Definition in_window (start end_ : option Z) (now : Z) : bool :=
  match start with Some s => s <=? now | None => true end &&
  match end_ with Some e => now <=? e | None => true end.

(** Price resolution as the spec words it (spec 4.1, steps 1-6). *)
Definition effective_price_spec (p : Product) (now : Z) : Q :=
  if negb (in_window (discount_start_date p) (discount_end_date p) now)
  then price p
  else if dp_positive (discount_price p)
  then match discount_price p with Some d => d | None => price p end
  else if 0 <? discount_percentage p
  then (price p * (1 - inject_Z (discount_percentage p) / 100))%Q
  else price p.

(** [is_on_sale] as the spec words it: a non-zero discount is set and the
    current time lies in the window. *)
Definition is_on_sale_spec (p : Product) (now : Z) : bool :=
  in_window (discount_start_date p) (discount_end_date p) now &&
  ((0 <? discount_percentage p) || dp_positive (discount_price p)).

(** A volume or weight option ([VolumeOption] / [WeightOption]). *)
Record Variant := mkVariant {
  v_price : Q;
  v_discount_percentage : Z;
  v_discount_price : option Q
}.

(** [VolumeOption.get_discounted_price] (models.py 235-248);
    [WeightOption.get_discounted_price] (464-476) is the same code with
    the parent pigment. *)
Definition variant_discounted_price (v : Variant) (parent : Product) (now : Z) : Q :=
  if dp_positive (v_discount_price v) then
    match v_discount_price v with Some d => d | None => v_price v end
  else if 0 <? v_discount_percentage v then
    percent_off (v_price v) (v_discount_percentage v)
  else if is_on_sale parent now then
    if 0 <? discount_percentage parent
    then percent_off (v_price v) (discount_percentage parent)
    else v_price v
  else v_price v.

(** The variant carries a local discount. *)
Definition has_local_discount (v : Variant) : bool :=
  dp_positive (v_discount_price v) || (0 <? v_discount_percentage v).

(** The price a variant resolves to from its local fields alone. *)
Definition variant_local_price (v : Variant) : Q :=
  if dp_positive (v_discount_price v) then
    match v_discount_price v with Some d => d | None => v_price v end
  else percent_off (v_price v) (v_discount_percentage v).

End Pricing.

(* ------------------------------------------------------------------ *)
(** ** Orders and loyalty settlement ([Order.save], models.py 1076-1163) *)

Module Settlement.

Inductive Status := pending | paid | processing | shipped | delivered | cancelled.

Definition status_eqb (a b : Status) : bool :=
  match a, b with
  | pending, pending | paid, paid | processing, processing
  | shipped, shipped | delivered, delivered | cancelled, cancelled => true
  | _, _ => false
  end.

(** The [Order] columns the settlement logic reads or writes. [user_id]
    is the foreign key column; [None] stands for an unset key, on which
    [if ... and self.user_id] is false. *)
Record Order := mkOrder {
  status : Status;
  user_id : option Z;
  subtotal : Q;
  delivery_cost : Q;
  loyalty_discount : Q;
  loyalty_points_used : Z;
  loyalty_points_earned : Z;
  loyalty_awarded : bool;
  loyalty_refunded : bool;
  total : Q
}.

Definition set_status (o : Order) (s : Status) : Order :=
  mkOrder s (user_id o) (subtotal o) (delivery_cost o) (loyalty_discount o)
    (loyalty_points_used o) (loyalty_points_earned o) (loyalty_awarded o)
    (loyalty_refunded o) (total o).

Definition set_amounts (o : Order) (dc ld t : Q) : Order :=
  mkOrder (status o) (user_id o) (subtotal o) dc ld
    (loyalty_points_used o) (loyalty_points_earned o) (loyalty_awarded o)
    (loyalty_refunded o) t.

(** [Order.objects.filter(pk=...).update(loyalty_points_earned=..., loyalty_awarded=True)] *)
Definition mark_awarded (o : Order) (earned : Z) : Order :=
  mkOrder (status o) (user_id o) (subtotal o) (delivery_cost o) (loyalty_discount o)
    (loyalty_points_used o) earned true (loyalty_refunded o) (total o).

(** [Order.objects.filter(pk=...).update(loyalty_refunded=True)] *)
Definition mark_refunded (o : Order) : Order :=
  mkOrder (status o) (user_id o) (subtotal o) (delivery_cost o) (loyalty_discount o)
    (loyalty_points_used o) (loyalty_points_earned o) (loyalty_awarded o) true (total o).

Record LoyaltyAccount := mkAccount {
  balance : Z;
  lifetime_earned : Z;
  lifetime_redeemed : Z
}.

Inductive TxType := earn | redeem | refund | adjust.

Record LoyaltyTransaction := mkTx {
  transaction_type : TxType;
  points : Z;
  balance_after : Z
}.

(** The database as seen by one order: its row (absent before the first
    save), the user's loyalty account row (absent until
    [get_or_create]) and the user's transaction ledger, oldest first. *)
Record World := mkWorld {
  db_order : option Order;
  account : option LoyaltyAccount;
  ledger : list LoyaltyTransaction
}.

(** [LoyaltyAccount.objects.select_for_update().get_or_create(user=...)] *)
Definition get_or_create_account (w : World) : LoyaltyAccount :=
  match account w with Some a => a | None => mkAccount 0 0 0 end.

(** [Decimal.quantize(Decimal('1'), rounding=ROUND_DOWN)]: rounding
    towards zero. *)
Definition quantize_round_down (x : Q) : Z :=
  if Qle_bool 0 x then Qfloor x else - Qfloor (- x).

(** [earned_points] of the award branch. *)
Definition earned_points (o : Order) : Z :=
  let d := (subtotal o - loyalty_discount o)%Q in
  let base_amount := if Qlt_bool d 0 then 0%Q else d in
  let earn_rate := (5 # 100)%Q in
  quantize_round_down (base_amount * earn_rate).

(** [self.user_id] as a truth value. *)
Definition has_user (o : Order) : bool :=
  match user_id o with Some _ => true | None => false end.

(** [if not x: x = Decimal('0')] *)
Definition normalize (x : Q) : Q := if Qeq_bool x 0 then 0%Q else x.

Definition status_in (s : Status) (l : list Status) : bool :=
  existsb (status_eqb s) l.

(** The amount normalisation and [total] recomputation at the top of
    [Order.save] (models.py 1092-1101). *)
Definition recompute_total (self : Order) : Order :=
  let dc := normalize (delivery_cost self) in
  let ld := normalize (loyalty_discount self) in
  let t := (subtotal self - ld + dc)%Q in
  let t := if Qlt_bool t 0 then 0%Q else t in
  set_amounts self dc ld t.

(** [Order.save]. Returns the in-memory instance after the call and the
    database after the call. The in-memory instance is not refreshed by
    the queryset [update]s at the end. *)
Definition order_save (self : Order) (w : World) : Order * World :=
  let '(previous_status, previous_awarded, previous_refunded) :=
    match db_order w with
    | Some previous =>
        (Some (status previous), loyalty_awarded previous, loyalty_refunded previous)
    | None => (None, loyalty_awarded self, loyalty_refunded self)
    end in
  let self := recompute_total self in
  (* super().save(): every column is written *)
  let w := mkWorld (Some self) (account w) (ledger w) in
  let should_award :=
    status_in (status self) [paid; delivered]
    && negb previous_awarded && negb (loyalty_awarded self) in
  let should_refund :=
    status_eqb (status self) cancelled && (0 <? loyalty_points_used self)
    && negb previous_refunded && negb (loyalty_refunded self) in
  if (should_award || should_refund) && has_user self then
    let acc := get_or_create_account w in
    let '(acc, led, row) :=
      if should_award then
        let earned := earned_points self in
        let '(acc, led) :=
          if 0 <? earned then
            let acc := mkAccount (balance acc + earned) (lifetime_earned acc + earned)
                         (lifetime_redeemed acc) in
            (acc, ledger w ++ [mkTx earn earned (balance acc)])
          else (acc, ledger w) in
        (acc, led, mark_awarded self earned)
      else (acc, ledger w, self) in
    let '(acc, led, row) :=
      if should_refund then
        let refund_points := loyalty_points_used self in
        let acc := mkAccount (balance acc + refund_points) (lifetime_earned acc)
                     (Z.max (lifetime_redeemed acc - refund_points) 0) in
        (acc, led ++ [mkTx refund refund_points (balance acc)], mark_refunded row)
      else (acc, led, row) in
    (self, mkWorld (Some row) (Some acc) led)
  else (self, w).

(** Fetch the order row, set its status and save it: the payment webhooks
    ([order = Order.objects.get(...)]; [order.status = 'paid'];
    [order.save()], store/views.py 1934-1941 and 2087-2094). *)
Definition refetch_save (s : Status) (w : World) : World :=
  match db_order w with
  | Some r => snd (order_save (set_status r s) w)
  | None => w
  end.

Definition mark_paid (w : World) : World := refetch_save paid w.

(** The admin bulk actions of store/admin.py 317-342:
    [queryset.update(status=...)], which bypasses [Order.save]. *)
Definition admin_bulk_update_status (s : Status) (w : World) : World :=
  match db_order w with
  | Some r => mkWorld (Some (set_status r s)) (account w) (ledger w)
  | None => w
  end.

(** The transition table of [order_status_update]
    (adminpanel/views.py 671-678). *)
Definition allowed_transitions (s : Status) : list Status :=
  match s with
  | pending => [paid; processing; cancelled]
  | paid => [processing; shipped; cancelled]
  | processing => [shipped; cancelled]
  | shipped => [delivered]
  | delivered => []
  | cancelled => []
  end.

Inductive UpdateOutcome :=
  | OrderNotFound
  | TransitionRejected (current requested : Status)
  | StatusUpdated.

(** [OrderStatusForm(request.POST, instance=order).is_valid()]: Django's
    [ModelForm._post_clean] calls [construct_instance], which copies the
    cleaned form fields ([status], [admin_notes], [tracking_number]) into
    the bound instance, that is into [order] itself. *)
Definition construct_instance (order : Order) (posted_status : Status) : Order :=
  set_status order posted_status.

(** [order_status_update] (adminpanel/views.py 650-691), for a POST with a
    valid form and no [updated_at] field. *)
Definition order_status_update (w : World) (posted_status : Status) : UpdateOutcome * World :=
  match db_order w with
  | None => (OrderNotFound, w)
  | Some order =>
      let order := construct_instance order posted_status in
      let new_status := posted_status in
      let current_status := status order in
      if negb (status_eqb new_status current_status)
         && negb (status_in new_status (allowed_transitions current_status))
      then (TransitionRejected current_status new_status, w)
      else (StatusUpdated, snd (order_save order w))
  end.

(** The [earn] entries of a ledger. *)
Definition earn_entries (l : list LoyaltyTransaction) : list LoyaltyTransaction :=
  List.filter (fun tx => match transaction_type tx with earn => true | _ => false end) l.

(** [total] as the spec words it: [max(0, subtotal - loyalty_discount + delivery_cost)]. *)
Definition total_spec (o : Order) : Q :=
  Qmax 0 (subtotal o - loyalty_discount o + delivery_cost o).

End Settlement.

(* ------------------------------------------------------------------ *)
(** ** Promotions ([Promotion.apply_discounts] / [clear_discounts],
    models.py 586-660) *)

Module Promotions.

(** A row of the [Perfume] or [Pigment] table: the discount columns the
    promotion engine writes, the filter columns it reads, and the price
    and stock columns it must leave alone. *)
Record CatalogProduct := mkCatalogProduct {
  brand : Z;
  category : Z;
  cp_price : Q;
  cp_stock_quantity : Z;
  cp_discount_percentage : Z;
  cp_discount_price : option Q;
  cp_discount_start_date : option Z;
  cp_discount_end_date : option Z;
  discount_source : option Z
}.

Inductive PromoType := promo_brand | promo_category | promo_manual | promo_all.

Record Promotion := mkPromotion {
  promo_id : Z;
  promo_type : PromoType;
  start_at : option Z;
  end_at : option Z;
  promo_discount_percentage : Z;
  promo_discount_price : option Q;
  promo_brand_id : option Z;
  promo_category_id : option Z;
  perfume_ids : list Z;
  pigment_ids : list Z;
  active : bool
}.

Record Catalog := mkCatalog {
  perfumes : gmap Z CatalogProduct;
  pigments : gmap Z CatalogProduct
}.

(** Membership of the row [k] in the queryset built by
    [Promotion._product_queryset]; [members] is the many-to-many set of
    the table ([self.perfumes] or [self.pigments]). *)
Definition in_queryset (promo : Promotion) (members : list Z) (k : Z)
    (p : CatalogProduct) : bool :=
  let by_brand :=
    match promo_type promo, promo_brand_id promo with
    | promo_brand, Some b => brand p =? b
    | _, _ => true
    end in
  let by_category :=
    match promo_type promo, promo_category_id promo with
    | promo_category, Some c => category p =? c
    | _, _ => true
    end in
  match promo_type promo with
  | promo_manual => existsb (Z.eqb k) members
  | _ => by_brand && by_category
  end.

(** The assignments of the loop body of [apply_discounts]. *)
Definition apply_to (promo : Promotion) (now : Z) (p : CatalogProduct) : CatalogProduct :=
  let start := match start_at promo with Some s => Some s | None => Some now end in
  mkCatalogProduct (brand p) (category p) (cp_price p) (cp_stock_quantity p)
    (promo_discount_percentage promo) (promo_discount_price promo)
    start (end_at promo) (Some (promo_id promo)).

(** The assignments of the loop body of [clear_discounts]. *)
Definition reset_discount (p : CatalogProduct) : CatalogProduct :=
  mkCatalogProduct (brand p) (category p) (cp_price p) (cp_stock_quantity p)
    0 None None None None.

Definition source_is (promo : Promotion) (p : CatalogProduct) : bool :=
  match discount_source p with Some s => s =? promo_id promo | None => false end.

Definition apply_table (promo : Promotion) (members : list Z) (now : Z)
    (m : gmap Z CatalogProduct) : gmap Z CatalogProduct :=
  map_imap (fun k p => Some (if in_queryset promo members k p then apply_to promo now p else p)) m.

(** [Perfume.objects.filter(discount_source=self)] and the loop over it. *)
Definition clear_table (promo : Promotion) (m : gmap Z CatalogProduct) : gmap Z CatalogProduct :=
  (fun p => if source_is promo p then reset_discount p else p) <$> m.

Definition set_active (promo : Promotion) (b : bool) : Promotion :=
  mkPromotion (promo_id promo) (promo_type promo) (start_at promo) (end_at promo)
    (promo_discount_percentage promo) (promo_discount_price promo)
    (promo_brand_id promo) (promo_category_id promo)
    (perfume_ids promo) (pigment_ids promo) b.

(** [Promotion.apply_discounts] at time [now]. *)
Definition apply_discounts (promo : Promotion) (now : Z) (cat : Catalog) : Catalog * Promotion :=
  (mkCatalog (apply_table promo (perfume_ids promo) now (perfumes cat))
             (apply_table promo (pigment_ids promo) now (pigments cat)),
   set_active promo true).

(** [Promotion.clear_discounts]. *)
Definition clear_discounts (promo : Promotion) (cat : Catalog) : Catalog * Promotion :=
  (mkCatalog (clear_table promo (perfumes cat)) (clear_table promo (pigments cat)),
   set_active promo false).

(** Neutral discount fields: percentage 0, no fixed price, no dates, no source. *)
Definition neutral_discount (p : CatalogProduct) : bool :=
  (cp_discount_percentage p =? 0) &&
  match cp_discount_price p, cp_discount_start_date p, cp_discount_end_date p,
        discount_source p with
  | None, None, None, None => true
  | _, _, _, _ => false
  end.

End Promotions.

(* ------------------------------------------------------------------ *)
(** ** Checkout ([OrderCreateSerializer.create], serializers.py 491-576) *)

Module Checkout.

(** A [Perfume] or [Pigment] row as checkout reads and writes it. *)
Record ProductRow := mkProductRow {
  name : string;
  sku : string;
  stock_quantity : Z;
  in_stock : bool;
  pricing : Pricing.Product
}.

(** A [VolumeOption] or [WeightOption] row; [label] is its [volume_ml] or
    [weight_gr]. *)
Record VariantRow := mkVariantRow {
  label : Z;
  v_stock_quantity : Z;
  v_in_stock : bool;
  v_pricing : Pricing.Variant
}.

Inductive ProductRef := RPerfume (id : Z) | RPigment (id : Z).

Record CartItem := mkCartItem {
  product : ProductRef;
  volume_option : option Z;
  weight_option : option Z;
  quantity : Z
}.

(** The columns of the [OrderItem] built for a cart line. *)
Record OrderItem := mkOrderItem {
  product_name : string;
  product_sku : string;
  selected_volume_ml : option Z;
  selected_weight_gr : option Z;
  oi_quantity : Z;
  unit_price : Q;
  total_price : Q
}.

Record Store := mkStore {
  st_perfumes : gmap Z ProductRow;
  st_pigments : gmap Z ProductRow;
  st_volume_options : gmap Z VariantRow;
  st_weight_options : gmap Z VariantRow;
  st_cart : gmap Z CartItem
}.

(** The [serializers.ValidationError]s of [create]. *)
Inductive CheckoutError :=
  | ErrEmptyCart
  | ErrCartItemNotFound (cart_item_id : Z)
  | ErrNotEnoughInCart (product : string)
  | ErrNotInStock (product : string)
  | ErrNotEnoughStock (product : string) (available : Z)
  | ErrMissingProduct.

Definition get_product (st : Store) (r : ProductRef) : option ProductRow :=
  match r with
  | RPerfume i => st_perfumes st !! i
  | RPigment i => st_pigments st !! i
  end.

Definition put_product (st : Store) (r : ProductRef) (p : ProductRow) : Store :=
  match r with
  | RPerfume i => mkStore (<[i:=p]> (st_perfumes st)) (st_pigments st)
                    (st_volume_options st) (st_weight_options st) (st_cart st)
  | RPigment i => mkStore (st_perfumes st) (<[i:=p]> (st_pigments st))
                    (st_volume_options st) (st_weight_options st) (st_cart st)
  end.

Definition put_cart (st : Store) (c : gmap Z CartItem) : Store :=
  mkStore (st_perfumes st) (st_pigments st) (st_volume_options st)
    (st_weight_options st) c.

(** [CartItem.unit_price] (models.py 985-999). *)
Definition cart_unit_price (st : Store) (ci : CartItem) (parent : ProductRow) (now : Z) : Q :=
  match match volume_option ci with Some i => st_volume_options st !! i | None => None end with
  | Some v => Pricing.variant_discounted_price (v_pricing v) (pricing parent) now
  | None =>
      match match weight_option ci with Some i => st_weight_options st !! i | None => None end with
      | Some v => Pricing.variant_discounted_price (v_pricing v) (pricing parent) now
      | None => Pricing.get_discounted_price (pricing parent) now
      end
  end.

(** One prepared line: the order item, the cart line (id and in-memory
    object) and the product object loaded through [cart_item.product]. *)
Definition Prepared : Type := (OrderItem * (Z * CartItem) * (ProductRef * ProductRow))%type.

(** The validation loop of [create] (serializers.py 510-549), one line. *)
Definition prepare_line (st : Store) (now : Z) (ci_id : Z) (ci : CartItem) (qty : Z)
    : CheckoutError + Prepared :=
  match get_product st (product ci) with
  | None => inl ErrMissingProduct
  | Some prod =>
      if qty >? quantity ci then inl (ErrNotEnoughInCart (name prod))
      else if negb (in_stock prod) then inl (ErrNotInStock (name prod))
      else if stock_quantity prod <? qty
      then inl (ErrNotEnoughStock (name prod) (stock_quantity prod))
      else
        let up := cart_unit_price st ci prod now in
        let oi := mkOrderItem (name prod) (sku prod) None None qty up
                    (up * inject_Z qty)%Q in
        inr (oi, (ci_id, ci), (product ci, prod))
  end.

Fixpoint prepare_lines (st : Store) (now : Z) (items : list (Z * Z))
    : CheckoutError + list Prepared :=
  match items with
  | [] => inr []
  | (ci_id, qty) :: rest =>
      match st_cart st !! ci_id with
      | None => inl (ErrCartItemNotFound ci_id)
      | Some ci =>
          match prepare_line st now ci_id ci qty with
          | inl e => inl e
          | inr l =>
              match prepare_lines st now rest with
              | inl e => inl e
              | inr ls => inr (l :: ls)
              end
          end
      end
  end.

(** The save loop of [create] (serializers.py 554-571): each product object
    and cart line object loaded during validation is updated and saved
    whole. *)
Definition apply_line (st : Store) (l : Prepared) : Store :=
  let '(oi, (ci_id, ci), (r, prod)) := l in
  let stock := stock_quantity prod - oi_quantity oi in
  let prod := mkProductRow (name prod) (sku prod) stock
                (if stock =? 0 then false else in_stock prod) (pricing prod) in
  let st := put_product st r prod in
  let q := quantity ci - oi_quantity oi in
  if q <=? 0 then put_cart st (delete ci_id (st_cart st))
  else put_cart st (<[ci_id := mkCartItem (product ci) (volume_option ci)
                                 (weight_option ci) q]> (st_cart st)).

Definition Qsum (l : list Q) : Q := fold_left Qplus l 0%Q.

(** [OrderCreateSerializer.create] for the requesting user's cart, with
    [items] absent ([None]: every cart line with its full quantity) or
    given as [(cart_item_id, quantity)] pairs. Returns the subtotal and the
    order items, and the store after the writes. *)
Definition checkout (st : Store) (now : Z) (items_data : option (list (Z * Z)))
    : CheckoutError + (Q * list OrderItem * Store) :=
  let items := match items_data with
               | Some l => l
               | None => map (fun '(i, ci) => (i, quantity ci)) (map_to_list (st_cart st))
               end in
  match items with
  | [] => inl ErrEmptyCart
  | _ =>
      match prepare_lines st now items with
      | inl e => inl e
      | inr ls =>
          let ois := map (fun '(oi, _, _) => oi) ls in
          inr (Qsum (map total_price ois), ois, fold_left apply_line ls st)
      end
  end.

End Checkout.

(* ------------------------------------------------------------------ *)
(** ** Volume and weight options ([VolumeOption] / [WeightOption]) *)

Module Options.

(** A [VolumeOption] row: [vo_parent] is the [perfume] key and [vo_size]
    the [volume_ml]. A [WeightOption] row has the same columns, with the
    [pigment] key and [weight_gr]. *)
Record VOption := mkVOption {
  vo_parent : Z;
  vo_size : Z;
  vo_pricing : Pricing.Variant;
  vo_stock_quantity : Z;
  vo_in_stock : bool;
  vo_is_default : bool
}.

(** [opt.get_discounted_price()] *)
Definition option_price (parent : Pricing.Product) (now : Z) (o : VOption) : Q :=
  Pricing.variant_discounted_price (vo_pricing o) parent now.

(** Python's [min] and [max] over a non-empty sequence: the running value
    is replaced when the next item compares strictly smaller (larger). *)
Definition py_min (x : Q) (l : list Q) : Q :=
  fold_left (fun acc y => if Qlt_bool y acc then y else acc) l x.

Definition py_max (x : Q) (l : list Q) : Q :=
  fold_left (fun acc y => if Qlt_bool acc y then y else acc) l x.

(** [Perfume.min_price] (models.py 166-172) and [Pigment.min_price]
    (395-401); [opts] are the product's options in queryset order. *)
Definition min_price (parent : Pricing.Product) (opts : list VOption) (now : Z) : Q :=
  match map (option_price parent now) (List.filter vo_in_stock opts) with
  | [] => Pricing.get_discounted_price parent now
  | x :: xs => py_min x xs
  end.

(** [Perfume.max_price] (models.py 174-180) and [Pigment.max_price]
    (403-409). *)
Definition max_price (parent : Pricing.Product) (opts : list VOption) (now : Z) : Q :=
  match map (option_price parent now) (List.filter vo_in_stock opts) with
  | [] => Pricing.get_discounted_price parent now
  | x :: xs => py_max x xs
  end.

Definition unset_default (o : VOption) : VOption :=
  mkVOption (vo_parent o) (vo_size o) (vo_pricing o) (vo_stock_quantity o) (vo_in_stock o) false.

(** [VolumeOption.save] (models.py 256-260) and [WeightOption.save]
    (484-488) of the row [v] with primary key [k]:
    [filter(perfume=..., is_default=True).exclude(pk=...).update(is_default=False)]
    when [v] is the default, then the row itself is written. *)
Definition option_save (tbl : gmap Z VOption) (k : Z) (v : VOption) : gmap Z VOption :=
  let tbl :=
    if vo_is_default v then
      map_imap (fun k' o =>
        Some (if (vo_parent o =? vo_parent v) && vo_is_default o && negb (k' =? k)
              then unset_default o else o)) tbl
    else tbl in
  <[k := v]> tbl.

(** [perfume.volume_options.count()] *)
Definition option_count (tbl : gmap Z VOption) (parent : Z) : nat :=
  size (filter (fun ko : Z * VOption => vo_parent ko.2 = parent) tbl).

(** The columns of the parent [Perfume] read by the [post_save] receiver. *)
Record BaseProduct := mkBaseProduct {
  base_size : Z;
  base_price : Q;
  base_stock_quantity : Z;
  base_in_stock : bool
}.

(** The option [VolumeOption.objects.create] makes for the base volume. *)
Definition base_option (parent : Z) (b : BaseProduct) : VOption :=
  mkVOption parent (base_size b) (Pricing.mkVariant (base_price b) 0 None)
    (base_stock_quantity b) (base_in_stock b) true.

(** [VolumeOption.objects.create(...)] of the row [v] under the primary
    key [k], followed by the [post_save] receiver
    [ensure_base_volume_option] (models.py 263-280;
    [ensure_base_weight_option], 491-509, is the same code); [fresh] is
    the primary key the base option receives. The receiver runs again for
    that nested create, sees a count of 2 and does nothing. *)
Definition create_option (tbl : gmap Z VOption) (b : BaseProduct) (k : Z) (v : VOption)
    (fresh : Z) : gmap Z VOption :=
  let tbl := option_save tbl k v in
  if (option_count tbl (vo_parent v) =? 1)%nat && negb (vo_size v =? base_size b)
  then option_save tbl fresh (base_option (vo_parent v) b)
  else tbl.

(** At most one default option per parent. *)
Definition single_default (tbl : gmap Z VOption) : Prop :=
  forall k1 k2 o1 o2, tbl !! k1 = Some o1 -> tbl !! k2 = Some o2 ->
  vo_parent o1 = vo_parent o2 -> vo_is_default o1 = true -> vo_is_default o2 = true ->
  k1 = k2.

End Options.

(* ------------------------------------------------------------------ *)
(** ** Discount display ([get_discount_percentage_display]) *)

Module Display.

(** [round(d)] of a [Decimal]: to the nearest integer, ties to even. *)
Definition round_half_even (x : Q) : Z :=
  let f := Qfloor x in
  let r := (x - inject_Z f)%Q in
  if Qlt_bool r (1 # 2) then f
  else if Qlt_bool (1 # 2) r then f + 1
  else if Z.even f then f else f + 1.

(** [get_discount_percentage_display] (models.py 145-150; the pigment's,
    374-379, is the same code). [None] is the [decimal.DivisionByZero]
    raised for a zero price. The quotient is computed exactly here; the
    28-digit [Decimal] quotient rounds to the same integer, since with
    2-decimal, 10-digit amounts an exact quotient is either a tie or at
    least [1/(2*10^10)] away from one. *)
Definition get_discount_percentage_display (p : Pricing.Product) : option Z :=
  if Pricing.dp_positive (Pricing.discount_price p) then
    let dp := match Pricing.discount_price p with Some d => d | None => 0%Q end in
    if Qeq_bool (Pricing.price p) 0 then None
    else Some (round_half_even ((Pricing.price p - dp) / Pricing.price p * 100))
  else Some (Pricing.discount_percentage p).

End Display.

(* ------------------------------------------------------------------ *)
(** ** Admin views on loyalty, order status and promotions
    (adminpanel/views.py) *)

Module Admin.

Import Settlement Promotions.

(** The [refund] entries of a ledger. *)
Definition refund_entries (l : list LoyaltyTransaction) : list LoyaltyTransaction :=
  List.filter (fun tx => match transaction_type tx with refund => true | _ => false end) l.

Inductive AdjustOutcome := BalanceUpdated | NegativeBalanceRejected.

(** [user_loyalty_update] (adminpanel/views.py 842-870) for a POST with a
    valid [LoyaltyAdjustForm] carrying [points]. The account row is made
    by [get_or_create] before the request is examined. *)
Definition user_loyalty_update (w : World) (points : Z) : AdjustOutcome * World :=
  let loyalty := get_or_create_account w in
  let w := mkWorld (db_order w) (Some loyalty) (ledger w) in
  let new_balance := balance loyalty + points in
  if new_balance <? 0 then (NegativeBalanceRejected, w)
  else
    let loyalty := mkAccount new_balance (lifetime_earned loyalty) (lifetime_redeemed loyalty) in
    (BalanceUpdated,
     mkWorld (db_order w) (Some loyalty)
       (ledger w ++ [mkTx (if 0 <=? points then adjust else redeem) points (balance loyalty)])).

(** The [updated_at] field of the POST: absent or empty, not an ISO
    timestamp, or a timestamp (microseconds). *)
Inductive PostedStamp := NoStamp | BadStamp | Stamp (t : Z).

Inductive StatusPostOutcome :=
  | StaleOrder
  | InvalidTimestamp
  | FormOutcome (r : UpdateOutcome).

(** [order_status_update] (adminpanel/views.py 650-691) with its
    optimistic check: [updated_at] is the stored [order.updated_at] in
    microseconds; a posted time more than one second away stops the
    request before the form is bound. *)
Definition order_status_post (w : World) (updated_at : Z) (stamp : PostedStamp)
    (posted_status : Status) : StatusPostOutcome * World :=
  match db_order w with
  | None => (FormOutcome OrderNotFound, w)
  | Some _ =>
      match stamp with
      | BadStamp => (InvalidTimestamp, w)
      | Stamp t =>
          if 1000000 <? Z.abs (updated_at - t) then (StaleOrder, w)
          else let '(r, w') := order_status_update w posted_status in (FormOutcome r, w')
      | NoStamp => let '(r, w') := order_status_update w posted_status in (FormOutcome r, w')
      end
  end.

(** [Perfume.objects.filter(id__in=ids)]: the ids with a row. *)
Definition existing_ids (m : gmap Z CatalogProduct) (ids : list Z) : list Z :=
  List.filter (fun i => match m !! i with Some _ => true | None => false end) ids.

(** The [update_promo] action of [discount_manage]
    (adminpanel/views.py 1034-1111) on the edited promotion, with the
    cleaned form values [pct], [dp], [start], [end_] and the selected
    perfume and pigment ids: [clear_discounts], the new field values and
    [active = True], the many-to-many sets replaced, [apply_discounts]. *)
Definition update_promo (promo : Promotion) (now : Z) (cat : Catalog) (pct : Z)
    (dp : option Q) (start end_ : option Z) (perf_ids pigm_ids : list Z)
    : Catalog * Promotion :=
  let '(cat, promo) := clear_discounts promo cat in
  let promo := mkPromotion (promo_id promo) (promo_type promo) start end_ pct dp
                 (promo_brand_id promo) (promo_category_id promo)
                 (perfume_ids promo) (pigment_ids promo) true in
  let promo := mkPromotion (promo_id promo) (promo_type promo) (start_at promo)
                 (end_at promo) (promo_discount_percentage promo)
                 (promo_discount_price promo) (promo_brand_id promo)
                 (promo_category_id promo)
                 (existing_ids (perfumes cat) perf_ids)
                 (existing_ids (pigments cat) pigm_ids) (active promo) in
  apply_discounts promo now cat.

End Admin.

(* ================================================================== *)
(** * Properties *)

Lemma Qlt_bool_iff (a b : Q) : Qlt_bool a b = true <-> (a < b)%Q.
Proof.
  unfold Qlt_bool. rewrite negb_true_iff.
  split; intro H.
  - apply Qnot_le_lt. intro H'. apply Qle_bool_iff in H'. congruence.
  - apply not_true_iff_false. intro H'. apply Qle_bool_iff in H'.
    apply (Qlt_not_le _ _ H H').
Qed.


Import Pricing.

Lemma date_blocks_in_window (s e : option Z) (now : Z) :
  date_blocks s e now = negb (in_window s e now).
Proof.
  unfold date_blocks, in_window.
  destruct s as [s|], e as [e|]; rewrite ?andb_true_r, ?andb_true_l; try reflexivity.
  - rewrite Z.gtb_ltb.
    destruct (Z.ltb_spec now s), (Z.leb_spec s now); simpl; try reflexivity; lia.
  - destruct (Z.ltb_spec e now), (Z.leb_spec now e); simpl; try reflexivity; lia.
Qed.

Example get_discounted_price_percent :
  get_discounted_price (mkProduct 100 20 None None None) 0 == 80.
Proof. vm_compute. reflexivity. Qed.

Example get_discounted_price_fixed :
  get_discounted_price (mkProduct 100 20 (Some 70%Q) None None) 0 = 70%Q.
Proof. vm_compute. reflexivity. Qed.

Example get_discounted_price_expired :
  get_discounted_price (mkProduct 100 20 (Some 70%Q) None (Some 9)) 10 = 100%Q.
Proof. vm_compute. reflexivity. Qed.

(** C1: for every product and every current time, the effective price
    computed by [get_discounted_price] is the spec's price resolution:
    the base price outside the discount window; inside it, a set positive
    fixed [discount_price] regardless of the percentage; otherwise, with a
    positive percentage, [base * (1 - pct/100)]; otherwise the base price. *)
Theorem get_discounted_price_resolution (p : Product) (now : Z) :
  get_discounted_price p now == effective_price_spec p now.
Proof.
  unfold get_discounted_price, effective_price_spec.
  rewrite date_blocks_in_window.
  destruct (negb (in_window _ _ _)); [reflexivity|].
  destruct (dp_positive (discount_price p)); [reflexivity|].
  destruct (0 <? discount_percentage p); [|reflexivity].
  unfold percent_off. ring.
Qed.

(** C8: for every variant, parent product and current time, the variant's
    price is resolved from its local discount alone whenever it has one
    (the parent is not consulted), and otherwise from the parent's
    percentage applied to the variant's own price when the parent is on
    sale, else the variant's own price: the two discounts are never
    combined. *)
Theorem variant_price_no_stacking (v : Variant) (parent : Product) (now : Z) :
  variant_discounted_price v parent now =
  if has_local_discount v then variant_local_price v
  else if is_on_sale parent now && (0 <? discount_percentage parent)
       then percent_off (v_price v) (discount_percentage parent)
       else v_price v.
Proof.
  unfold variant_discounted_price, has_local_discount, variant_local_price.
  destruct (dp_positive (v_discount_price v)); [reflexivity|].
  destruct (0 <? v_discount_percentage v); [reflexivity|].
  simpl. destruct (is_on_sale parent now); reflexivity.
Qed.

(** C9: [is_on_sale] on a product whose window is active but which carries
    no discount at all (percentage 0, no fixed price): the code answers
    [true], the spec reading answers [false]. *)
Lemma is_on_sale_no_discount_in_window :
  is_on_sale (mkProduct 100 0 None (Some 0) (Some 10)) 5 = true /\
  is_on_sale_spec (mkProduct 100 0 None (Some 0) (Some 10)) 5 = false.
Proof. split; reflexivity. Qed.


Import Settlement.

Lemma normalize_idem (x : Q) : normalize (normalize x) = normalize x.
Proof.
  unfold normalize. destruct (Qeq_bool x 0) eqn:E; [reflexivity|].
  rewrite E. reflexivity.
Qed.

Lemma normalize_eq (x : Q) : normalize x == x.
Proof.
  unfold normalize. destruct (Qeq_bool x 0) eqn:E; [|reflexivity].
  apply Qeq_bool_eq in E. rewrite E. reflexivity.
Qed.

Lemma recompute_total_idem (o : Order) :
  recompute_total (recompute_total o) = recompute_total o.
Proof.
  unfold recompute_total, set_amounts. simpl. rewrite !normalize_idem. reflexivity.
Qed.

Lemma clamp_Qmax (t : Q) : (if Qlt_bool t 0 then 0 else t) == Qmax 0 t.
Proof.
  destruct (Qlt_bool t 0) eqn:E.
  - apply Qlt_bool_iff in E. symmetry. apply Q.max_l. apply Qlt_le_weak. exact E.
  - symmetry. apply Q.max_r. apply Qnot_lt_le. intro H.
    apply Qlt_bool_iff in H. congruence.
Qed.

Lemma recompute_total_spec (o : Order) :
  total (recompute_total o) == total_spec (recompute_total o).
Proof. unfold total_spec, recompute_total. simpl. apply clamp_Qmax. Qed.

(** The shape of the database row written by [Order.save]: the saved
    instance, with at most the loyalty flags and [loyalty_points_earned]
    changed by the final [update]s. *)
Lemma order_save_row (o : Order) (w : World) :
  fst (order_save o w) = recompute_total o /\
  exists r, db_order (snd (order_save o w)) = Some r /\
    (r = recompute_total o \/
     r = mark_awarded (recompute_total o) (earned_points (recompute_total o)) \/
     r = mark_refunded (recompute_total o) \/
     r = mark_refunded (mark_awarded (recompute_total o) (earned_points (recompute_total o)))).
Proof.
  unfold order_save.
  destruct (db_order w) as [prev|]; simpl;
  repeat match goal with
  | |- context [if ?b then _ else _] => destruct b; simpl
  end; split; try reflexivity; eexists; split; try reflexivity; tauto.
Qed.

Lemma order_save_row_total (o : Order) (w : World) :
  exists r, db_order (snd (order_save o w)) = Some r /\
    total r = total (recompute_total o) /\
    subtotal r = subtotal (recompute_total o) /\
    delivery_cost r = delivery_cost (recompute_total o) /\
    loyalty_discount r = loyalty_discount (recompute_total o).
Proof.
  destruct (order_save_row o w) as [_ [r [Hr Hcases]]].
  exists r. split; [exact Hr|].
  destruct Hcases as [->|[->|[->| ->]]]; repeat split.
Qed.

Lemma recompute_total_fields (r o : Order) :
  subtotal r = subtotal o -> delivery_cost r = delivery_cost o ->
  loyalty_discount r = loyalty_discount o ->
  total (recompute_total r) = total (recompute_total o).
Proof.
  intros Hs Hd Hl. unfold recompute_total, set_amounts. simpl.
  rewrite Hs, Hd, Hl. reflexivity.
Qed.

(** C6: after every call of [Order.save] on any order, whatever the status
    change, the stored row satisfies
    [total == max(0, subtotal - loyalty_discount + delivery_cost)]; and the
    recomputation is idempotent: saving again, either the same instance or
    the row fetched back from the database, leaves [total] unchanged. *)
Theorem order_save_total_invariant (o : Order) (w : World) :
  match db_order (snd (order_save o w)) with
  | Some r =>
      total r == total_spec r /\
      total r = total (fst (order_save o w)) /\
      total (fst (order_save (fst (order_save o w)) (snd (order_save o w))))
        = total (fst (order_save o w)) /\
      total (fst (order_save r (snd (order_save o w)))) = total r
  | None => False
  end.
Proof.
  destruct (order_save_row o w) as [Hfst _].
  destruct (order_save_row_total o w) as [r [Hr [Ht [Hs [Hd Hl]]]]].
  rewrite Hr.
  pose proof (proj1 (order_save_row r (snd (order_save o w)))) as Hfst_r.
  pose proof (proj1 (order_save_row (fst (order_save o w)) (snd (order_save o w)))) as Hfst2.
  rewrite Hfst_r, Hfst2, Hfst, recompute_total_idem.
  split; [|split; [|split]].
  - unfold total_spec. rewrite Ht, Hs, Hd, Hl. apply recompute_total_spec.
  - exact Ht.
  - reflexivity.
  - rewrite Ht. rewrite (recompute_total_fields r (recompute_total o)) by assumption.
    rewrite recompute_total_idem. reflexivity.
Qed.

Ltac case_ifs :=
  repeat match goal with
  | |- context [if ?b then _ else _] => destruct b eqn:?; simpl
  end.

(** The award branch of [Order.save], as one equation. *)
Lemma order_save_award (o : Order) (w : World) :
  status_in (status o) [paid; delivered] = true ->
  loyalty_awarded o = false ->
  match db_order w with Some r => loyalty_awarded r = false | None => True end ->
  has_user o = true ->
  let o1 := recompute_total o in
  let e := earned_points o1 in
  let acc0 := get_or_create_account w in
  order_save o w =
  (o1, mkWorld (Some (mark_awarded o1 e))
     (Some (if 0 <? e
            then mkAccount (balance acc0 + e) (lifetime_earned acc0 + e) (lifetime_redeemed acc0)
            else acc0))
     (if 0 <? e then ledger w ++ [mkTx earn e (balance acc0 + e)] else ledger w)).
Proof.
  intros Hst Hinst Hdb Huser o1 e acc0.
  assert (Hc : status_eqb (status o) cancelled = false)
    by (destruct (status o); simpl in *; congruence).
  unfold order_save, o1, e, acc0, get_or_create_account.
  destruct (db_order w) as [prev|]; simpl; [rewrite Hdb|];
  unfold has_user in *; simpl in *;
  rewrite ?Hinst, Hst, Hc; simpl; rewrite Huser; simpl;
  destruct (0 <? _); reflexivity.
Qed.

(** A save whose stored row already has [loyalty_awarded] and which does
    not cancel touches neither the account nor the ledger. *)
Lemma order_save_after_award (o : Order) (w : World) (r : Order) :
  db_order w = Some r -> loyalty_awarded r = true ->
  status_eqb (status o) cancelled = false ->
  snd (order_save o w) = mkWorld (Some (recompute_total o)) (account w) (ledger w).
Proof.
  intros Hdb Hr Hc. unfold order_save. rewrite Hdb. simpl. rewrite Hr.
  unfold recompute_total, set_amounts in *. simpl. rewrite Hc.
  rewrite !andb_false_r. simpl. reflexivity.
Qed.

(** A save of an instance read back from a row that has [loyalty_awarded]
    keeps the flag, [lifetime_earned] and the [earn] entries (a refund may
    still run). *)
Lemma order_save_keeps_award (o : Order) (w : World) (r : Order) :
  db_order w = Some r -> loyalty_awarded r = true -> loyalty_awarded o = true ->
  (exists r', db_order (snd (order_save o w)) = Some r' /\ loyalty_awarded r' = true) /\
  lifetime_earned (get_or_create_account (snd (order_save o w))) =
    lifetime_earned (get_or_create_account w) /\
  earn_entries (ledger (snd (order_save o w))) = earn_entries (ledger w).
Proof.
  intros Hdb Hr Ho. unfold order_save. rewrite Hdb. simpl. rewrite Hr.
  unfold recompute_total, set_amounts, get_or_create_account in *. simpl.
  rewrite Ho. rewrite !andb_false_r. simpl.
  case_ifs; simpl;
    repeat split; try (eexists; split; [reflexivity|]; simpl; first [reflexivity|assumption]);
    unfold earn_entries; rewrite ?List.filter_app; simpl; rewrite ?app_nil_r;
    reflexivity.
Qed.

Lemma refetch_save_keeps_award (s : Status) (w : World) (r : Order) :
  db_order w = Some r -> loyalty_awarded r = true ->
  (exists r', db_order (refetch_save s w) = Some r' /\ loyalty_awarded r' = true) /\
  lifetime_earned (get_or_create_account (refetch_save s w)) =
    lifetime_earned (get_or_create_account w) /\
  earn_entries (ledger (refetch_save s w)) = earn_entries (ledger w).
Proof.
  intros Hdb Hr. unfold refetch_save. rewrite Hdb.
  apply (order_save_keeps_award _ _ r Hdb Hr). exact Hr.
Qed.

Lemma refetch_saves_keep_award (ss : list Status) (w : World) (r : Order) :
  db_order w = Some r -> loyalty_awarded r = true ->
  let w2 := fold_left (fun w s => refetch_save s w) ss w in
  (exists r', db_order w2 = Some r' /\ loyalty_awarded r' = true) /\
  lifetime_earned (get_or_create_account w2) = lifetime_earned (get_or_create_account w) /\
  earn_entries (ledger w2) = earn_entries (ledger w).
Proof.
  revert w r. induction ss as [|s ss IH]; intros w r Hdb Hr; simpl.
  - eauto.
  - destruct (refetch_save_keeps_award s w r Hdb Hr) as [[r' [Hdb' Hr']] [He Hl]].
    destruct (IH _ _ Hdb' Hr') as [Hx [He' Hl']].
    split; [exact Hx|]. split; congruence.
Qed.

Lemma earned_points_formula (o : Order) :
  earned_points o = Qfloor (Qmax (subtotal o - loyalty_discount o) 0 * (5 # 100)).
Proof.
  unfold earned_points, quantize_round_down.
  set (d := (subtotal o - loyalty_discount o)%Q).
  assert (Hb : (if Qlt_bool d 0 then 0 else d) == Qmax d 0)
    by (rewrite clamp_Qmax; apply Q.max_comm).
  assert (Hnn : (0 <= (if Qlt_bool d 0 then 0 else d))%Q).
  { destruct (Qlt_bool d 0) eqn:E; [apply Qle_refl|].
    apply Qnot_lt_le. intro H. apply Qlt_bool_iff in H. congruence. }
  replace (Qle_bool 0 _) with true.
  - apply Qfloor_comp. rewrite Hb. reflexivity.
  - symmetry. apply Qle_bool_iff. apply Qmult_le_0_compat; [exact Hnn|].
    unfold Qle; simpl; lia.
Qed.

Lemma status_in_award_not_cancelled (s : Status) :
  status_in s [paid; delivered] = true -> status_eqb s cancelled = false.
Proof. destruct s; simpl; congruence. Qed.

(** C2: when an order whose stored and in-memory [loyalty_awarded] are
    false is saved with status [paid] or [delivered], [Order.save] credits
    [earned = floor(max(subtotal - loyalty_discount, 0) * 0.05)] points to
    the user's account (balance and lifetime_earned grow by [earned], and
    an [earn] transaction with the post-increment balance is appended when
    [earned > 0]), and stores [loyalty_awarded = true] and
    [loyalty_points_earned = earned]; saving the order as paid a second
    time, either the same instance again or the row read back by the
    payment webhook, leaves the account and the ledger unchanged. *)
Theorem loyalty_award_exactly_once (o : Order) (w : World)
  (Hst : status_in (status o) [paid; delivered] = true)
  (Hinst : loyalty_awarded o = false)
  (Hdb : match db_order w with Some r => loyalty_awarded r = false | None => True end)
  (Huser : has_user o = true) :
  let o1 := fst (order_save o w) in
  let w1 := snd (order_save o w) in
  let e := earned_points o1 in
  let acc0 := get_or_create_account w in
  e = Qfloor (Qmax (subtotal o1 - loyalty_discount o1) 0 * (5 # 100)) /\
  account w1 = Some (if 0 <? e
                     then mkAccount (balance acc0 + e) (lifetime_earned acc0 + e)
                            (lifetime_redeemed acc0)
                     else acc0) /\
  ledger w1 = (if 0 <? e then ledger w ++ [mkTx earn e (balance acc0 + e)] else ledger w) /\
  option_map loyalty_awarded (db_order w1) = Some true /\
  option_map loyalty_points_earned (db_order w1) = Some e /\
  account (snd (order_save o1 w1)) = account w1 /\
  ledger (snd (order_save o1 w1)) = ledger w1 /\
  account (mark_paid w1) = account w1 /\
  ledger (mark_paid w1) = ledger w1.
Proof.
  pose proof (order_save_award o w Hst Hinst Hdb Huser) as Haw. simpl in Haw.
  set (o1 := recompute_total o) in *.
  assert (Hc : status_eqb (status o1) cancelled = false)
    by (apply status_in_award_not_cancelled; exact Hst).
  rewrite Haw. cbn [fst snd].
  set (e := earned_points o1).
  set (acc := if 0 <? e then _ else _).
  set (led := if 0 <? e then _ else _).
  set (w1 := {| db_order := Some (mark_awarded o1 e); account := Some acc; ledger := led |}).
  assert (H2 := order_save_after_award o1 w1 (mark_awarded o1 e) eq_refl eq_refl Hc).
  assert (H3 : mark_paid w1 = snd (order_save (set_status (mark_awarded o1 e) paid) w1))
    by reflexivity.
  rewrite (order_save_after_award (set_status (mark_awarded o1 e) paid) w1
             (mark_awarded o1 e) eq_refl eq_refl eq_refl) in H3.
  rewrite H2, H3.
  split; [apply earned_points_formula|].
  repeat split.
Qed.

Lemma earned_points_recompute (o : Order) :
  earned_points (recompute_total o) = earned_points o.
Proof.
  rewrite !earned_points_formula. apply Qfloor_comp.
  unfold recompute_total, set_amounts. simpl. rewrite normalize_eq. reflexivity.
Qed.

(** Witness of C2 on the spec's scenario: subtotal 500, loyalty discount 50,
    delivery 30; the order, pending in the database, is saved as paid:
    22 points are credited once, and the second save adds nothing. *)
Lemma loyalty_award_exactly_once_witness :
  let o := mkOrder paid (Some 1) 500 30 50 0 0 false false 0 in
  let w := mkWorld (Some (mkOrder pending (Some 1) 500 30 50 0 0 false false 480))
             (Some (mkAccount 0 0 0)) [] in
  status_in (status o) [paid; delivered] = true /\
  loyalty_awarded o = false /\
  match db_order w with Some r => loyalty_awarded r = false | None => True end /\
  has_user o = true /\
  ledger (snd (order_save (fst (order_save o w)) (snd (order_save o w)))) =
    [mkTx earn 22 22].
Proof.
  intros o w.
  split; [reflexivity|]. split; [reflexivity|]. split; [reflexivity|].
  split; [reflexivity|].
  destruct (loyalty_award_exactly_once o w eq_refl eq_refl eq_refl eq_refl)
    as (_ & _ & Hl & _ & _ & _ & Hl2 & _).
  rewrite Hl2, Hl. vm_compute. reflexivity.
Defined.

(** C10: when an order whose [floor(max(subtotal - loyalty_discount, 0) * 0.05)]
    is 0 is saved as [paid] (with [loyalty_awarded] false in memory and in
    the database), the stored row gets [loyalty_awarded = true] and
    [loyalty_points_earned = 0], the account balance is unchanged and no
    transaction is appended; afterwards any sequence of status changes made
    by reading the order back and saving it (a later [delivered] among
    them) keeps the flag true and never earns points for the order:
    [lifetime_earned] and the [earn] entries of the ledger stay as they
    were. *)
Theorem loyalty_zero_award_is_final (o : Order) (w : World)
  (Hst : status o = paid)
  (Hinst : loyalty_awarded o = false)
  (Hdb : match db_order w with Some r => loyalty_awarded r = false | None => True end)
  (Huser : has_user o = true)
  (Hzero : Qfloor (Qmax (subtotal o - loyalty_discount o) 0 * (5 # 100)) = 0) :
  let w1 := snd (order_save o w) in
  option_map loyalty_awarded (db_order w1) = Some true /\
  option_map loyalty_points_earned (db_order w1) = Some 0 /\
  balance (get_or_create_account w1) = balance (get_or_create_account w) /\
  ledger w1 = ledger w /\
  forall ss : list Status,
    let w2 := fold_left (fun w s => refetch_save s w) ss w1 in
    (exists r, db_order w2 = Some r /\ loyalty_awarded r = true) /\
    lifetime_earned (get_or_create_account w2) = lifetime_earned (get_or_create_account w1) /\
    earn_entries (ledger w2) = earn_entries (ledger w1).
Proof.
  assert (Hst' : status_in (status o) [paid; delivered] = true) by (rewrite Hst; reflexivity).
  pose proof (order_save_award o w Hst' Hinst Hdb Huser) as Haw. simpl in Haw.
  rewrite earned_points_recompute, earned_points_formula, Hzero in Haw.
  simpl in Haw. rewrite Haw. cbn [snd].
  split; [reflexivity|]. split; [reflexivity|]. split; [reflexivity|].
  split; [reflexivity|].
  intros ss. apply (refetch_saves_keep_award ss _ (mark_awarded (recompute_total o) 0));
    reflexivity.
Qed.

(** Witness of C10: subtotal 19, no loyalty discount, saved as paid. *)
Lemma loyalty_zero_award_is_final_witness :
  let o := mkOrder paid (Some 1) 19 0 0 0 0 false false 0 in
  let w := mkWorld (Some (mkOrder pending (Some 1) 19 0 0 0 0 false false 19))
             (Some (mkAccount 5 5 0)) [] in
  status o = paid /\ loyalty_awarded o = false /\
  match db_order w with Some r => loyalty_awarded r = false | None => True end /\
  has_user o = true /\
  Qfloor (Qmax (subtotal o - loyalty_discount o) 0 * (5 # 100)) = 0 /\
  option_map loyalty_awarded
    (db_order (fold_left (fun w s => refetch_save s w) [delivered] (snd (order_save o w))))
    = Some true.
Proof.
  intros o w.
  do 5 (split; [reflexivity|]).
  destruct (loyalty_zero_award_is_final o w eq_refl eq_refl eq_refl eq_refl eq_refl)
    as (_ & _ & _ & _ & Hss).
  destruct (Hss [delivered]) as [[r [Hr Ha]] _].
  rewrite Hr. simpl. rewrite Ha. reflexivity.
Defined.

(** [order_status_update] never answers [TransitionRejected]: the current
    status it tests is read from the instance after the form has copied
    the posted status into it. *)
Lemma order_status_update_never_rejects (w : World) (s : Status) :
  match fst (order_status_update w s) with
  | TransitionRejected _ _ => False
  | _ => True
  end.
Proof.
  unfold order_status_update. destruct (db_order w) as [o|]; [|exact I].
  unfold construct_instance, set_status. simpl.
  assert (Hs : status_eqb s s = true) by (destruct s; reflexivity).
  rewrite Hs. exact I.
Qed.

(** C3: an admin POST moving a [shipped] order to [paid] is accepted and
    stored, although [paid] is not in the transition table for [shipped]
    (a guard reading the status before the form is bound rejects it). *)
Theorem order_status_update_shipped_to_paid :
  let w := mkWorld (Some (mkOrder shipped (Some 1) 500 30 50 0 22 true false 480))
             (Some (mkAccount 22 22 0)) [mkTx earn 22 22] in
  negb (status_eqb paid shipped) && negb (status_in paid (allowed_transitions shipped)) = true /\
  fst (order_status_update w paid) = StatusUpdated /\
  option_map status (db_order (snd (order_status_update w paid))) = Some paid.
Proof. vm_compute. repeat split. Qed.

(** C7: an order moved to [paid] by the admin bulk action
    ([queryset.update], which bypasses [Order.save]) and then saved again
    with the same status [paid] by the payment webhook gets its points
    credited on that save, although the stored status before the save
    already was [paid]. *)
Theorem award_fires_without_status_change :
  let w0 := mkWorld (Some (mkOrder pending (Some 1) 500 30 50 0 0 false false 480))
              (Some (mkAccount 0 0 0)) [] in
  let w1 := admin_bulk_update_status paid w0 in
  option_map status (db_order w1) = Some paid /\
  ledger w1 = [] /\
  option_map status (db_order (mark_paid w1)) = Some paid /\
  ledger (mark_paid w1) = [mkTx earn 22 22] /\
  account (mark_paid w1) = Some (mkAccount 22 22 0).
Proof. vm_compute. repeat split. Qed.

Import Promotions.

Lemma apply_table_lookup (promo : Promotion) (members : list Z) (now : Z)
    (m : gmap Z CatalogProduct) (k : Z) :
  apply_table promo members now m !! k =
  (fun p => if in_queryset promo members k p then apply_to promo now p else p) <$> m !! k.
Proof. unfold apply_table. rewrite map_lookup_imap. destruct (m !! k); reflexivity. Qed.

Lemma clear_table_lookup (promo : Promotion) (m : gmap Z CatalogProduct) (k : Z) :
  clear_table promo m !! k =
  (fun p => if source_is promo p then reset_discount p else p) <$> m !! k.
Proof. unfold clear_table. apply lookup_fmap. Qed.

Lemma in_queryset_apply_to (promo' promo : Promotion) (members : list Z) (k now : Z)
    (p : CatalogProduct) :
  in_queryset promo' members k (apply_to promo now p) = in_queryset promo' members k p.
Proof. reflexivity. Qed.

Lemma source_is_apply_to (promo : Promotion) (now : Z) (p : CatalogProduct) :
  source_is promo (apply_to promo now p) = true.
Proof. unfold source_is. simpl. apply Z.eqb_refl. Qed.

Lemma source_is_apply_other (A B : Promotion) (now : Z) (p : CatalogProduct) :
  promo_id A <> promo_id B -> source_is A (apply_to B now p) = false.
Proof. intro H. unfold source_is. simpl. apply Z.eqb_neq. congruence. Qed.

Lemma reset_discount_neutral (p : CatalogProduct) :
  neutral_discount (reset_discount p) = true.
Proof. reflexivity. Qed.

(** The isolation argument on one table. *)
Lemma table_isolation (A B : Promotion) (mA mB : list Z) (nowA nowB : Z)
    (m : gmap Z CatalogProduct) :
  promo_id A <> promo_id B ->
  (forall k p, m !! k = Some p -> in_queryset A mA k p = true -> in_queryset B mB k p = false) ->
  forall k p, m !! k = Some p ->
  (in_queryset A mA k p = true ->
   clear_table A (apply_table B mB nowB (apply_table A mA nowA m)) !! k =
   Some (reset_discount (apply_to A nowA p))) /\
  (in_queryset B mB k p = true ->
   clear_table A (apply_table B mB nowB (apply_table A mA nowA m)) !! k =
   apply_table B mB nowB (apply_table A mA nowA m) !! k).
Proof.
  intros HAB Hdisj k p Hk.
  rewrite clear_table_lookup, !apply_table_lookup, Hk. simpl.
  split; intro Hin.
  - rewrite Hin, in_queryset_apply_to, (Hdisj k p Hk Hin), source_is_apply_to.
    reflexivity.
  - destruct (in_queryset A mA k p) eqn:HA.
    + rewrite (Hdisj k p Hk HA) in Hin. discriminate.
    + rewrite Hin, source_is_apply_other by exact HAB. reflexivity.
Qed.

(** C4: [clear_discounts P] resets the discount fields (percentage 0, no
    fixed price, no dates, no source) of exactly the perfumes and pigments
    whose [discount_source] is [P], leaves every other row as it was, and
    marks [P] inactive. In particular, for promotions [A] and [B] with
    distinct ids whose target sets are disjoint: after applying [A], then
    [B], then clearing [A], every product targeted by [A] has neutral
    discount fields (with its price and stock unchanged), and every product
    targeted by [B] is exactly as [B] left it. *)
Theorem promotion_clear_isolation (A B : Promotion) (nowA nowB : Z) (cat : Catalog)
  (HAB : promo_id A <> promo_id B)
  (Hperf : forall k p, perfumes cat !! k = Some p ->
           in_queryset A (perfume_ids A) k p = true ->
           in_queryset B (perfume_ids B) k p = false)
  (Hpig : forall k p, pigments cat !! k = Some p ->
          in_queryset A (pigment_ids A) k p = true ->
          in_queryset B (pigment_ids B) k p = false) :
  (forall (P : Promotion) (c : Catalog) (k : Z),
     active (snd (clear_discounts P c)) = false /\
     perfumes (fst (clear_discounts P c)) !! k =
       (fun p => if source_is P p then reset_discount p else p) <$> perfumes c !! k /\
     pigments (fst (clear_discounts P c)) !! k =
       (fun p => if source_is P p then reset_discount p else p) <$> pigments c !! k) /\
  (let c2 := fst (apply_discounts B nowB (fst (apply_discounts A nowA cat))) in
   let c3 := fst (clear_discounts A c2) in
   forall (k : Z) (p : CatalogProduct),
     (perfumes cat !! k = Some p ->
      (in_queryset A (perfume_ids A) k p = true ->
       exists q, perfumes c3 !! k = Some q /\ neutral_discount q = true /\
                 cp_price q = cp_price p /\ cp_stock_quantity q = cp_stock_quantity p) /\
      (in_queryset B (perfume_ids B) k p = true -> perfumes c3 !! k = perfumes c2 !! k)) /\
     (pigments cat !! k = Some p ->
      (in_queryset A (pigment_ids A) k p = true ->
       exists q, pigments c3 !! k = Some q /\ neutral_discount q = true /\
                 cp_price q = cp_price p /\ cp_stock_quantity q = cp_stock_quantity p) /\
      (in_queryset B (pigment_ids B) k p = true -> pigments c3 !! k = pigments c2 !! k))).
Proof.
  split.
  - intros P c k. simpl. split; [reflexivity|].
    split; apply clear_table_lookup.
  - intros c2 c3 k p. subst c2 c3. simpl.
    split; intro Hk.
    + destruct (table_isolation A B _ _ nowA nowB _ HAB Hperf k p Hk) as [H1 H2].
      split; [|exact H2].
      intro Hin. eexists. split; [exact (H1 Hin)|]. repeat split.
    + destruct (table_isolation A B _ _ nowA nowB _ HAB Hpig k p Hk) as [H1 H2].
      split; [|exact H2].
      intro Hin. eexists. split; [exact (H1 Hin)|]. repeat split.
Qed.

(** Witness of C4: two manual promotions on perfumes 1 and 2. *)
Lemma promotion_clear_isolation_witness :
  let p := mkCatalogProduct 1 1 100 5 0 None None None None in
  let A := mkPromotion 10 promo_manual None None 20 None None None [1] [] false in
  let B := mkPromotion 20 promo_manual (Some 0) None 30 None None None [2] [] false in
  let cat := mkCatalog (<[1:=p]> (<[2:=p]> ∅)) ∅ in
  let c2 := fst (apply_discounts B 5 (fst (apply_discounts A 5 cat))) in
  let c3 := fst (clear_discounts A c2) in
  promo_id A <> promo_id B /\
  (exists q, perfumes c3 !! 1 = Some q /\ neutral_discount q = true) /\
  perfumes c3 !! 2 = perfumes c2 !! 2.
Proof.
  intros p A B cat c2 c3.
  assert (HAB : promo_id A <> promo_id B) by discriminate.
  assert (Hperf : forall k q, perfumes cat !! k = Some q ->
           in_queryset A (perfume_ids A) k q = true ->
           in_queryset B (perfume_ids B) k q = false).
  { intros k q _ H. cbv [in_queryset A B promo_type perfume_ids existsb] in H |- *.
    destruct (Z.eqb_spec k 1) as [->|Hne]; [reflexivity|discriminate]. }
  assert (Hpig : forall k q, pigments cat !! k = Some q ->
           in_queryset A (pigment_ids A) k q = true ->
           in_queryset B (pigment_ids B) k q = false).
  { intros k q Hk. simpl in Hk. rewrite lookup_empty in Hk. discriminate. }
  split; [exact HAB|].
  destruct (promotion_clear_isolation A B 5 5 cat HAB Hperf Hpig) as [_ H].
  destruct (proj1 (H 1 p) eq_refl) as [H1 _].
  destruct (proj1 (H 2 p) eq_refl) as [_ H2].
  split.
  - destruct (H1 eq_refl) as (q & Hq & Hn & _). exists q. split; assumption.
  - exact (H2 eq_refl).
Defined.

Import Checkout.

(** C5: a cart line that selects a sold-out volume option (stock 0,
    [in_stock] false) of a perfume whose own row has stock 5 is accepted by
    checkout: the stock test reads the perfume row, the perfume row is
    decremented to 4, the volume option row is not written, and the order
    item records no selected volume. *)
Theorem checkout_ignores_variant_stock :
  let st := mkStore
    (<[1 := mkProductRow "Rose" "R-1" 5 true (Pricing.mkProduct 100 0 None None None)]> ∅)
    ∅
    (<[7 := mkVariantRow 100 0 false (Pricing.mkVariant 120 0 None)]> ∅)
    ∅
    (<[3 := mkCartItem (RPerfume 1) (Some 7) None 1]> ∅) in
  (match st_volume_options st !! 7 with
   | Some v => (v_stock_quantity v <? 1) && negb (v_in_stock v)
   | None => false
   end) = true /\
  match checkout st 0 None with
  | inr (subtotal, ois, st') =>
      map selected_volume_ml ois = [None] /\
      option_map stock_quantity (st_perfumes st' !! 1) = Some 4 /\
      st_volume_options st' = st_volume_options st /\
      st_cart st' !! 3 = None
  | inl _ => False
  end.
Proof. vm_compute. repeat split. Qed.

Import Options.

Lemma py_min_spec (l : list Q) :
  forall x, (py_min x l <= x)%Q /\ forall y, In y l -> (py_min x l <= y)%Q.
Proof.
  unfold py_min. induction l as [|y l IH]; intro x; simpl.
  - split; [apply Qle_refl|tauto].
  - set (x' := if Qlt_bool y x then y else x).
    assert (Hx : (x' <= x)%Q /\ (x' <= y)%Q).
    { unfold x'. destruct (Qlt_bool y x) eqn:E.
      - apply Qlt_bool_iff in E. split; [apply Qlt_le_weak; exact E|apply Qle_refl].
      - split; [apply Qle_refl|]. apply Qnot_lt_le. intro H.
        apply Qlt_bool_iff in H. congruence. }
    destruct (IH x') as [H1 H2]. split.
    + eapply Qle_trans; [exact H1|apply Hx].
    + intros z [<-|Hz]; [eapply Qle_trans; [exact H1|apply Hx]|auto].
Qed.

Lemma py_max_spec (l : list Q) :
  forall x, (x <= py_max x l)%Q /\ forall y, In y l -> (y <= py_max x l)%Q.
Proof.
  unfold py_max. induction l as [|y l IH]; intro x; simpl.
  - split; [apply Qle_refl|tauto].
  - set (x' := if Qlt_bool x y then y else x).
    assert (Hx : (x <= x')%Q /\ (y <= x')%Q).
    { unfold x'. destruct (Qlt_bool x y) eqn:E.
      - apply Qlt_bool_iff in E. split; [apply Qlt_le_weak; exact E|apply Qle_refl].
      - split; [apply Qle_refl|]. apply Qnot_lt_le. intro H.
        apply Qlt_bool_iff in H. congruence. }
    destruct (IH x') as [H1 H2]. split.
    + eapply Qle_trans; [apply Hx|exact H1].
    + intros z [<-|Hz]; [eapply Qle_trans; [apply Hx|exact H1]|auto].
Qed.

(** [min_price] and [max_price] of a perfume or pigment: the minimum never
    exceeds the maximum, every in-stock option's price lies between them,
    and with no option in stock both are the product's own price. *)
Theorem min_max_price_bounds (parent : Pricing.Product) (opts : list VOption) (now : Z) :
  (min_price parent opts now <= max_price parent opts now)%Q /\
  (forall o, In o opts -> vo_in_stock o = true ->
     (min_price parent opts now <= option_price parent now o)%Q /\
     (option_price parent now o <= max_price parent opts now)%Q) /\
  (List.filter vo_in_stock opts = [] ->
     min_price parent opts now = Pricing.get_discounted_price parent now /\
     max_price parent opts now = Pricing.get_discounted_price parent now).
Proof.
  unfold min_price, max_price.
  destruct (map (option_price parent now) (List.filter vo_in_stock opts)) as [|x xs] eqn:E.
  - split; [apply Qle_refl|]. split.
    + intros o Hin Hst. exfalso.
      assert (Hf : In o (List.filter vo_in_stock opts)) by (apply filter_In; auto).
      apply (in_map (option_price parent now)) in Hf. rewrite E in Hf. exact Hf.
    + intros _. split; reflexivity.
  - destruct (py_min_spec xs x) as [Hm1 Hm2].
    destruct (py_max_spec xs x) as [HM1 HM2].
    split; [eapply Qle_trans; [exact Hm1|exact HM1]|]. split.
    + intros o Hin Hst.
      assert (Hf : In o (List.filter vo_in_stock opts)) by (apply filter_In; auto).
      apply (in_map (option_price parent now)) in Hf. rewrite E in Hf.
      destruct Hf as [<-|Hf]; [split; assumption|split; auto].
    + intro Hf. rewrite Hf in E. discriminate.
Qed.

Lemma option_save_lookup (tbl : gmap Z VOption) (k : Z) (v : VOption) (k' : Z) :
  option_save tbl k v !! k' =
  if k' =? k then Some v
  else (fun o => if vo_is_default v && ((vo_parent o =? vo_parent v) && vo_is_default o)
                 then unset_default o else o) <$> tbl !! k'.
Proof.
  unfold option_save. rewrite lookup_insert.
  destruct (Z.eqb_spec k' k) as [->|Hne].
  - rewrite decide_True by reflexivity. reflexivity.
  - rewrite decide_False by congruence.
    destruct (vo_is_default v).
    + rewrite map_lookup_imap. destruct (tbl !! k'); [|reflexivity]. simpl.
      rewrite (proj2 (Z.eqb_neq k' k) Hne). simpl. rewrite andb_true_r. reflexivity.
    + destruct (tbl !! k'); reflexivity.
Qed.

Lemma unset_default_fields (o : VOption) :
  vo_parent (unset_default o) = vo_parent o /\ vo_is_default (unset_default o) = false.
Proof. split; reflexivity. Qed.


Lemma option_save_other (tbl : gmap Z VOption) (k : Z) (v : VOption) (k' : Z) (o : VOption) :
  k' <> k -> option_save tbl k v !! k' = Some o ->
  exists o0, tbl !! k' = Some o0 /\ vo_parent o = vo_parent o0 /\
    (vo_is_default o = true -> o = o0 /\ (vo_is_default v = true -> vo_parent o0 <> vo_parent v)) /\
    (vo_parent o0 <> vo_parent v -> o = o0).
Proof.
  intros Hne Hk. rewrite option_save_lookup, (proj2 (Z.eqb_neq k' k) Hne) in Hk.
  destruct (tbl !! k') as [o0|]; [|discriminate]. simpl in Hk. injection Hk as <-.
  exists o0. split; [reflexivity|].
  destruct (vo_is_default v && ((vo_parent o0 =? vo_parent v) && vo_is_default o0)) eqn:Hc.
  - apply andb_true_iff in Hc as [_ Hc]. apply andb_true_iff in Hc as [Hc _].
    apply Z.eqb_eq in Hc.
    split; [reflexivity|]. split; [discriminate|]. intro H; contradiction.
  - split; [reflexivity|]. split; [|reflexivity].
    intro Hd0. split; [reflexivity|]. intros Hdv Hp.
    rewrite Hdv, Hd0, Hp, Z.eqb_refl in Hc. discriminate.
Qed.

(** Saving any option ([VolumeOption.save] / [WeightOption.save]) keeps
    "at most one default option per perfume (pigment)". *)
Theorem option_save_single_default (tbl : gmap Z VOption) (k : Z) (v : VOption)
  (H : single_default tbl) :
  single_default (option_save tbl k v).
Proof.
  intros k1 k2 o1 o2 H1 H2 Hp D1 D2.
  destruct (Z.eq_dec k1 k) as [->|Hn1]; destruct (Z.eq_dec k2 k) as [->|Hn2];
    try reflexivity.
  - rewrite option_save_lookup, Z.eqb_refl in H1. injection H1 as <-.
    destruct (option_save_other tbl k v k2 o2 Hn2 H2) as (o0 & _ & Hpo & Hd & _).
    destruct (Hd D2) as [<- Hne]. exfalso. exact (Hne D1 (eq_sym Hp)).
  - rewrite option_save_lookup, Z.eqb_refl in H2. injection H2 as <-.
    destruct (option_save_other tbl k v k1 o1 Hn1 H1) as (o0 & _ & Hpo & Hd & _).
    destruct (Hd D1) as [<- Hne]. exfalso. exact (Hne D2 Hp).
  - destruct (option_save_other tbl k v k1 o1 Hn1 H1) as (o10 & Ht1 & _ & Hd1 & _).
    destruct (option_save_other tbl k v k2 o2 Hn2 H2) as (o20 & Ht2 & _ & Hd2 & _).
    destruct (Hd1 D1) as [<- _]. destruct (Hd2 D2) as [<- _].
    exact (H k1 k2 o1 o2 Ht1 Ht2 Hp D1 D2).
Qed.

(** Witness: saving a default option into an empty table, then a second
    default option of the same perfume. *)
Lemma option_save_single_default_witness :
  single_default ∅ /\
  single_default (option_save (option_save ∅ 1 (mkVOption 5 50 (Pricing.mkVariant 80 0 None) 3 true true))
                   2 (mkVOption 5 100 (Pricing.mkVariant 120 0 None) 4 true true)).
Proof.
  assert (H0 : single_default ∅).
  { intros k1 k2 o1 o2 H1. rewrite lookup_empty in H1. discriminate. }
  split; [exact H0|].
  apply option_save_single_default. apply option_save_single_default. exact H0.
Defined.

Lemma option_count_one (tbl : gmap Z VOption) (p k : Z) (v : VOption) :
  tbl !! k = Some v -> vo_parent v = p ->
  (forall k' o, tbl !! k' = Some o -> vo_parent o = p -> k' = k) ->
  option_count tbl p = 1%nat.
Proof.
  intros Hk Hv Hall. unfold option_count.
  assert (Hf : filter (fun ko : Z * VOption => vo_parent ko.2 = p) tbl = {[k := v]}).
  { apply map_eq. intro i. rewrite lookup_singleton.
    destruct (decide (k = i)) as [<-|Hne].
    - apply map_lookup_filter_Some_2; [exact Hk|exact Hv].
    - apply map_lookup_filter_None_2. right. intros x Hx Hpx.
      apply Hne. symmetry. exact (Hall i x Hx Hpx). }
  rewrite Hf. apply map_size_singleton.
Qed.

(** [VolumeOption.objects.create] of the first option of a perfume, with a
    volume other than the perfume's own: the [post_save] receiver adds an
    option for the base volume, with the perfume's price, stock and
    [in_stock], as the default; the created option loses a default flag it
    had; the perfume then has exactly these two options; options of other
    keys are untouched. *)
Theorem create_option_adds_base (tbl : gmap Z VOption) (b : BaseProduct) (k : Z) (v : VOption)
  (fresh : Z)
  (Hnone : forall k' o, tbl !! k' = Some o -> vo_parent o <> vo_parent v)
  (Hk : k <> fresh)
  (Hsize : vo_size v <> base_size b) :
  let t := create_option tbl b k v fresh in
  t !! fresh = Some (base_option (vo_parent v) b) /\
  t !! k = Some (if vo_is_default v then unset_default v else v) /\
  (forall k' o, t !! k' = Some o -> vo_parent o = vo_parent v -> k' = k \/ k' = fresh) /\
  (forall k', k' <> k -> k' <> fresh -> t !! k' = tbl !! k').
Proof.
  intros t.
  set (t1 := option_save tbl k v).
  assert (Ht1k : t1 !! k = Some v) by (unfold t1; rewrite option_save_lookup, Z.eqb_refl; reflexivity).
  assert (Ht1 : forall k' o, t1 !! k' = Some o -> vo_parent o = vo_parent v -> k' = k).
  { intros k' o Ho Hp. destruct (Z.eq_dec k' k) as [->|Hne]; [reflexivity|].
    destruct (option_save_other tbl k v k' o Hne Ho) as (o0 & Ht & Hpo & _).
    exfalso. apply (Hnone k' o0 Ht). congruence. }
  assert (Hc : option_count t1 (vo_parent v) = 1%nat)
    by exact (option_count_one t1 (vo_parent v) k v Ht1k eq_refl Ht1).
  assert (Ht : t = option_save t1 fresh (base_option (vo_parent v) b)).
  { unfold t, create_option. fold t1. rewrite Hc.
    rewrite (proj2 (Z.eqb_neq _ _) Hsize). reflexivity. }
  rewrite Ht. split; [|split; [|split]].
  - rewrite option_save_lookup, Z.eqb_refl. reflexivity.
  - rewrite option_save_lookup, (proj2 (Z.eqb_neq k fresh) Hk), Ht1k. simpl.
    rewrite Z.eqb_refl. destruct (vo_is_default v); reflexivity.
  - intros k' o Ho Hp. destruct (Z.eq_dec k' fresh) as [->|Hne]; [right; reflexivity|left].
    destruct (option_save_other t1 fresh _ k' o Hne Ho) as (o0 & Ht0 & Hpo & _).
    apply (Ht1 k' o0 Ht0). congruence.
  - intros k' Hnk Hnf. rewrite option_save_lookup, (proj2 (Z.eqb_neq k' fresh) Hnf).
    unfold t1. rewrite option_save_lookup, (proj2 (Z.eqb_neq k' k) Hnk).
    destruct (tbl !! k') as [o|] eqn:E; [|reflexivity]. simpl.
    pose proof (Hnone k' o E) as Hp.
    rewrite (proj2 (Z.eqb_neq _ _) Hp). rewrite !andb_false_r. simpl.
    rewrite (proj2 (Z.eqb_neq _ _) Hp). rewrite ?andb_false_r. reflexivity.
Qed.

(** Witness: a 50 ml option created for a 100 ml perfume with no option. *)
Lemma create_option_adds_base_witness :
  let v := mkVOption 5 50 (Pricing.mkVariant 80 0 None) 3 true false in
  let b := mkBaseProduct 100 120 7 true in
  (forall k' o, (∅ : gmap Z VOption) !! k' = Some o -> vo_parent o <> vo_parent v) /\
  (1 <> 2) /\ vo_size v <> base_size b /\
  create_option ∅ b 1 v 2 !! 2 = Some (base_option 5 b).
Proof.
  intros v b.
  assert (Hn : forall k' o, (∅ : gmap Z VOption) !! k' = Some o -> vo_parent o <> vo_parent v).
  { intros k' o H. rewrite lookup_empty in H. discriminate. }
  split; [exact Hn|]. split; [discriminate|]. split; [discriminate|].
  exact (proj1 (create_option_adds_base ∅ b 1 v 2 Hn ltac:(discriminate) ltac:(discriminate))).
Defined.

Import Display.

Lemma round_half_even_bounds (x : Q) (lo hi : Z) :
  (inject_Z lo <= x)%Q -> (x <= inject_Z hi)%Q -> (lo <= round_half_even x <= hi)%Z.
Proof.
  intros Hl Hh. unfold round_half_even.
  pose proof (Qfloor_le x) as Hf1. pose proof (Qlt_floor x) as Hf2.
  set (f := Qfloor x) in *.
  assert (Hlo : (lo <= f)%Z) by (rewrite <- (Qfloor_Z lo); apply Qfloor_resp_le; exact Hl).
  assert (Hhi : (f <= hi)%Z) by (rewrite <- (Qfloor_Z hi); apply Qfloor_resp_le; exact Hh).
  destruct (Qlt_bool (x - inject_Z f) (1 # 2)) eqn:E1; [lia|].
  assert (Hge : (1 # 2 <= x - inject_Z f)%Q).
  { apply Qnot_lt_le. intro H. apply Qlt_bool_iff in H. congruence. }
  assert (Hlt : (f < hi)%Z) by (rewrite Zlt_Qlt; lra).
  destruct (Qlt_bool (1 # 2) (x - inject_Z f)); [lia|].
  destruct (Z.even f); lia.
Qed.

(** [get_discount_percentage_display] with a fixed discount price set: a
    zero base price raises a division by zero, and the stored percentage
    is never shown (the result does not depend on it). *)
Theorem discount_display_fixed_price (p : Pricing.Product)
  (Hdp : Pricing.dp_positive (Pricing.discount_price p) = true) :
  (Pricing.price p == 0 -> get_discount_percentage_display p = None) /\
  (forall pct : Z,
     get_discount_percentage_display
       (Pricing.mkProduct (Pricing.price p) pct (Pricing.discount_price p)
          (Pricing.discount_start_date p) (Pricing.discount_end_date p)) =
     get_discount_percentage_display p).
Proof.
  split.
  - intro H. unfold get_discount_percentage_display. rewrite Hdp.
    apply Qeq_bool_iff in H. rewrite H. reflexivity.
  - intro pct. unfold get_discount_percentage_display. simpl. rewrite Hdp. reflexivity.
Qed.

(** Witness: price 0 with a fixed discount price of 5. *)
Lemma discount_display_fixed_price_witness :
  Pricing.dp_positive (Pricing.discount_price (Pricing.mkProduct 0 10 (Some 5%Q) None None)) = true /\
  get_discount_percentage_display (Pricing.mkProduct 0 10 (Some 5%Q) None None) = None.
Proof.
  split; [reflexivity|].
  apply (proj1 (discount_display_fixed_price (Pricing.mkProduct 0 10 (Some 5%Q) None None)
                  eq_refl)).
  reflexivity.
Defined.

(** [get_discount_percentage_display] with a positive fixed discount price
    not above the base price shows an integer percentage between 0 and
    100. *)
Theorem discount_display_range (p : Pricing.Product) (d : Q)
  (Hd : Pricing.discount_price p = Some d) (Hpos : (0 < d)%Q)
  (Hle : (d <= Pricing.price p)%Q) :
  exists n, get_discount_percentage_display p = Some n /\ (0 <= n <= 100)%Z.
Proof.
  unfold get_discount_percentage_display. rewrite Hd.
  assert (Hdp : Pricing.dp_positive (Some d) = true) by (apply Qlt_bool_iff; exact Hpos).
  rewrite Hdp.
  set (P := Pricing.price p) in *.
  assert (HP : (0 < P)%Q) by lra.
  destruct (Qeq_bool P 0) eqn:E.
  { apply Qeq_bool_iff in E. lra. }
  eexists. split; [reflexivity|].
  apply round_half_even_bounds.
  - apply Qmult_le_0_compat; [|unfold Qle; simpl; lia].
    apply Qmult_le_0_compat; [lra|]. apply Qinv_le_0_compat. lra.
  - assert (H1 : ((P - d) / P <= 1)%Q) by (apply Qle_shift_div_r; lra).
    apply (Qmult_le_compat_r _ _ 100) in H1; [|unfold Qle; simpl; lia].
    unfold inject_Z. lra.
Qed.

(** Witness: base price 200, fixed price 150: 25 percent. *)
Lemma discount_display_range_witness :
  (0 < 150)%Q /\ (150 <= 200)%Q /\
  get_discount_percentage_display (Pricing.mkProduct 200 0 (Some 150%Q) None None) = Some 25%Z.
Proof.
  split; [reflexivity|]. split; [discriminate|].
  destruct (discount_display_range (Pricing.mkProduct 200 0 (Some 150%Q) None None) 150
              eq_refl eq_refl ltac:(discriminate)) as [n [Hn _]].
  rewrite Hn. vm_compute in Hn. symmetry. exact Hn.
Defined.

Import Settlement Admin.

Lemma order_save_keeps_refund (o : Order) (w : World) (r : Order) :
  db_order w = Some r -> loyalty_refunded r = true -> loyalty_refunded o = true ->
  (exists r', db_order (snd (order_save o w)) = Some r' /\ loyalty_refunded r' = true) /\
  refund_entries (ledger (snd (order_save o w))) = refund_entries (ledger w).
Proof.
  intros Hdb Hr Ho. unfold order_save. rewrite Hdb. simpl. rewrite Hr.
  unfold recompute_total, set_amounts, get_or_create_account in *. simpl.
  rewrite Ho. rewrite !andb_false_r. simpl. rewrite !orb_false_r.
  case_ifs; simpl;
    repeat split; try (eexists; split; [reflexivity|]; simpl; first [reflexivity|assumption]);
    unfold refund_entries; rewrite ?List.filter_app; simpl; rewrite ?app_nil_r;
    reflexivity.
Qed.

Lemma refetch_saves_keep_refund (ss : list Status) (w : World) (r : Order) :
  db_order w = Some r -> loyalty_refunded r = true ->
  let w2 := fold_left (fun w s => refetch_save s w) ss w in
  (exists r', db_order w2 = Some r' /\ loyalty_refunded r' = true) /\
  refund_entries (ledger w2) = refund_entries (ledger w).
Proof.
  revert w r. induction ss as [|s ss IH]; intros w r Hdb Hr; simpl.
  - eauto.
  - assert (Hs : (exists r', db_order (refetch_save s w) = Some r' /\ loyalty_refunded r' = true) /\
                 refund_entries (ledger (refetch_save s w)) = refund_entries (ledger w)).
    { unfold refetch_save. rewrite Hdb. apply (order_save_keeps_refund _ _ r Hdb Hr). exact Hr. }
    destruct Hs as [[r' [Hdb' Hr']] Hl].
    destruct (IH _ _ Hdb' Hr') as [Hx Hl'].
    split; [exact Hx|]. congruence.
Qed.

(** The refund branch of [Order.save] (models.py 1146-1163): saving as
    [cancelled] an order that used [n > 0] points and is not yet refunded
    (in the database and in memory) gives the [n] points back
    ([lifetime_redeemed] decreases by [n], floored at 0), appends one
    [refund] transaction carrying the new balance and stores
    [loyalty_refunded = true]; afterwards no sequence of saves of the
    order read back from the database refunds it again. *)
Theorem order_save_refund (o : Order) (w : World) (r : Order)
  (Hdb : db_order w = Some r) (Hprev : loyalty_refunded r = false)
  (Hst : status o = cancelled) (Hinst : loyalty_refunded o = false)
  (Hused : 0 < loyalty_points_used o) (Huser : has_user o = true) :
  let n := loyalty_points_used o in
  let acc0 := get_or_create_account w in
  let w1 := snd (order_save o w) in
  account w1 = Some (mkAccount (balance acc0 + n) (lifetime_earned acc0)
                      (Z.max (lifetime_redeemed acc0 - n) 0)) /\
  ledger w1 = ledger w ++ [mkTx refund n (balance acc0 + n)] /\
  option_map loyalty_refunded (db_order w1) = Some true /\
  forall ss : list Status,
    let w2 := fold_left (fun w s => refetch_save s w) ss w1 in
    (exists r', db_order w2 = Some r' /\ loyalty_refunded r' = true) /\
    refund_entries (ledger w2) = refund_entries (ledger w1).
Proof.
  intros n acc0 w1.
  assert (Hw1 : w1 = mkWorld (Some (mark_refunded (recompute_total o)))
                   (Some (mkAccount (balance acc0 + n) (lifetime_earned acc0)
                            (Z.max (lifetime_redeemed acc0 - n) 0)))
                   (ledger w ++ [mkTx refund n (balance acc0 + n)])).
  { unfold w1, order_save, acc0, n. rewrite Hdb. simpl. rewrite Hprev.
    unfold recompute_total, set_amounts, get_or_create_account, has_user in *. simpl.
    rewrite Hst, Hinst. simpl. apply Z.ltb_lt in Hused. rewrite Hused. simpl.
    destruct (user_id o); [reflexivity|discriminate]. }
  rewrite Hw1. split; [reflexivity|]. split; [reflexivity|]. split; [reflexivity|].
  intros ss. apply (refetch_saves_keep_refund ss _ (mark_refunded (recompute_total o)));
    reflexivity.
Qed.

(** Witness: an order that used 40 points, cancelled. *)
Lemma order_save_refund_witness :
  let o := mkOrder cancelled (Some 1) 500 30 40 40 0 false false 490 in
  let r := mkOrder paid (Some 1) 500 30 40 40 0 false false 490 in
  let w := mkWorld (Some r) (Some (mkAccount 10 50 40)) [] in
  db_order w = Some r /\ loyalty_refunded r = false /\ status o = cancelled /\
  loyalty_refunded o = false /\ 0 < loyalty_points_used o /\ has_user o = true /\
  ledger (snd (order_save o w)) = [mkTx refund 40 50].
Proof.
  intros o r w.
  do 4 (split; [reflexivity|]). split; [reflexivity|]. split; [reflexivity|].
  exact (proj1 (proj2 (order_save_refund o w r eq_refl eq_refl eq_refl eq_refl
                        ltac:(reflexivity) eq_refl))).
Defined.

(** One call of [Order.save] only appends to the ledger, and at most one
    transaction: the award and the refund branches never both run. *)
Theorem order_save_ledger_append (o : Order) (w : World) :
  exists l, ledger (snd (order_save o w)) = ledger w ++ l /\ (length l <= 1)%nat.
Proof.
  unfold order_save, recompute_total, set_amounts.
  destruct (db_order w); simpl; destruct (status o); simpl; case_ifs;
    first [ exists []; rewrite app_nil_r; split; [reflexivity|simpl; lia]
          | eexists; split; [reflexivity|simpl; lia] ].
Qed.

(** [user_loyalty_update]: an adjustment that would make the balance
    negative is refused and leaves the balance and the ledger as they
    were; any other adjustment sets the balance to [balance + points] and
    appends exactly one transaction ([adjust] for [points >= 0], [redeem]
    otherwise) whose [balance_after] is the new balance. The lifetime
    counters are never changed, also not by a negative adjustment logged
    as [redeem]; a non-negative balance stays non-negative. *)
Theorem user_loyalty_update_balance (w : World) (pts : Z)
  (Hnn : 0 <= balance (get_or_create_account w)) :
  let '(res, w') := user_loyalty_update w pts in
  let acc := get_or_create_account w in
  let acc' := get_or_create_account w' in
  0 <= balance acc' /\
  lifetime_earned acc' = lifetime_earned acc /\
  lifetime_redeemed acc' = lifetime_redeemed acc /\
  db_order w' = db_order w /\
  ((balance acc + pts < 0 /\ res = NegativeBalanceRejected /\
    balance acc' = balance acc /\ ledger w' = ledger w) \/
   (0 <= balance acc + pts /\ res = BalanceUpdated /\
    balance acc' = balance acc + pts /\
    ledger w' = ledger w ++ [mkTx (if 0 <=? pts then adjust else redeem) pts (balance acc')])).
Proof.
  unfold user_loyalty_update.
  set (acc := get_or_create_account w) in *.
  destruct (Z.ltb_spec (balance acc + pts) 0) as [Hneg|Hpos]; simpl.
  - repeat split; try reflexivity; [exact Hnn|]. left. repeat split; assumption.
  - repeat split; try reflexivity; [exact Hpos|]. right. repeat split; assumption.
Qed.

(** Witness: a balance of 10 adjusted by -4. *)
Lemma user_loyalty_update_balance_witness :
  let w := mkWorld None (Some (mkAccount 10 10 0)) [] in
  0 <= balance (get_or_create_account w) /\
  snd (user_loyalty_update w (-4)) = mkWorld None (Some (mkAccount 6 10 0)) [mkTx redeem (-4) 6].
Proof.
  intros w. split; [simpl; lia|].
  pose proof (user_loyalty_update_balance w (-4) ltac:(simpl; lia)) as H.
  destruct (user_loyalty_update w (-4)) as [res w'] eqn:E.
  destruct H as (_ & _ & _ & Hdb & [(Hneg & _)|(_ & _ & Hb & Hl)]).
  - simpl in Hneg. lia.
  - simpl. vm_compute in E. injection E as _ <-. reflexivity.
Defined.

Lemma order_status_update_world (w : World) (s : Status) :
  match order_status_update w s with
  | (StatusUpdated, _) => True
  | (TransitionRejected _ _, _) => False
  | (OrderNotFound, w') => w' = w
  end.
Proof.
  pose proof (order_status_update_never_rejects w s) as H.
  unfold order_status_update in *. destruct (db_order w) as [o|]; [|reflexivity].
  destruct (negb _ && negb _); simpl in *; [contradiction|exact I].
Qed.

(** [order_status_update] with its timestamp check: a posted [updated_at]
    more than one second away from the stored one, or one that is not a
    timestamp, stops the request with the database unchanged; a request
    that passes the check is never refused by the transition table, so
    every outcome other than a status update leaves the database as it
    was. *)
Theorem order_status_post_guard (w : World) (updated_at : Z) (stamp : PostedStamp)
  (s : Status) (o : Order) (Hdb : db_order w = Some o) :
  order_status_post w updated_at BadStamp s = (InvalidTimestamp, w) /\
  (forall t, 1000000 < Z.abs (updated_at - t) ->
     order_status_post w updated_at (Stamp t) s = (StaleOrder, w)) /\
  match order_status_post w updated_at stamp s with
  | (FormOutcome StatusUpdated, _) => True
  | (FormOutcome (TransitionRejected _ _), _) => False
  | (_, w') => w' = w
  end.
Proof.
  unfold order_status_post. rewrite Hdb.
  split; [reflexivity|]. split.
  - intros t Ht. apply Z.ltb_lt in Ht. rewrite Ht. reflexivity.
  - pose proof (order_status_update_world w s) as H.
    destruct stamp as [| |t]; [| reflexivity |].
    + destruct (order_status_update w s) as [[| |] w']; simpl; exact H.
    + destruct (1000000 <? Z.abs (updated_at - t)); [reflexivity|].
      destruct (order_status_update w s) as [[| |] w']; simpl; exact H.
Qed.

(** Witness: the stored order was updated 5 seconds after the time the
    admin's page shows. *)
Lemma order_status_post_guard_witness :
  let o := mkOrder paid (Some 1) 500 30 50 0 22 true false 480 in
  let w := mkWorld (Some o) (Some (mkAccount 22 22 0)) [mkTx earn 22 22] in
  db_order w = Some o /\
  order_status_post w 7000000 (Stamp 2000000) cancelled = (StaleOrder, w).
Proof.
  intros o w. split; [reflexivity|].
  exact (proj1 (proj2 (order_status_post_guard w 7000000 NoStamp cancelled o eq_refl))
           2000000 ltac:(simpl; lia)).
Defined.

Import Promotions.

Lemma existsb_existing (m : gmap Z CatalogProduct) (ids : list Z) (k : Z) :
  m !! k <> None -> existsb (Z.eqb k) (existing_ids m ids) = existsb (Z.eqb k) ids.
Proof.
  intro Hk. unfold existing_ids. induction ids as [|i ids IH]; [reflexivity|]. simpl.
  destruct (m !! i) eqn:Ei; simpl; rewrite IH; [reflexivity|].
  destruct (Z.eqb_spec k i) as [->|]; [contradiction|reflexivity].
Qed.

Lemma existsb_eqb_In (k : Z) (l : list Z) : existsb (Z.eqb k) l = true <-> In k l.
Proof.
  rewrite existsb_exists. split.
  - intros [x [Hx Hk]]. apply Z.eqb_eq in Hk. subst. exact Hx.
  - intro H. exists k. split; [exact H|apply Z.eqb_refl].
Qed.

(** [update_promo] on one table: after clearing and re-applying with the
    members [ids], a selected row carries the new discount, and any other
    row is as [clear_discounts] left it. *)
Lemma update_promo_table (promo promo2 : Promotion) (now : Z) (m : gmap Z CatalogProduct)
    (ids : list Z) (k : Z) (p : CatalogProduct) :
  promo_type promo2 = promo_manual -> m !! k = Some p ->
  apply_table promo2 (existing_ids (clear_table promo m) ids) now (clear_table promo m) !! k =
  Some (if existsb (Z.eqb k) ids
        then apply_to promo2 now (if source_is promo p then reset_discount p else p)
        else if source_is promo p then reset_discount p else p).
Proof.
  intros Hman Hk.
  rewrite apply_table_lookup, clear_table_lookup, Hk. simpl.
  unfold in_queryset at 1. rewrite Hman.
  rewrite existsb_existing; [reflexivity|].
  rewrite clear_table_lookup, Hk. discriminate.
Qed.

(** Editing a manual promotion in the admin ([update_promo]): it is
    cleared, then re-applied to the newly selected products only. Every
    selected product carries the new percentage, fixed price, dates and
    the promotion as source, with its price and stock unchanged; every
    product that is no longer selected and was discounted by this
    promotion gets neutral discount fields; every other product is left
    as it was. *)
Theorem update_promo_reapplies (promo : Promotion) (now : Z) (cat : Catalog) (pct : Z)
  (dp : option Q) (start end_ : option Z) (perf_ids pigm_ids : list Z)
  (Hman : promo_type promo = promo_manual) :
  let res := update_promo promo now cat pct dp start end_ perf_ids pigm_ids in
  active (snd res) = true /\
  forall k p,
    (perfumes cat !! k = Some p ->
     (In k perf_ids ->
      exists q, perfumes (fst res) !! k = Some q /\
        cp_discount_percentage q = pct /\ cp_discount_price q = dp /\
        cp_discount_start_date q = Some (match start with Some s => s | None => now end) /\
        cp_discount_end_date q = end_ /\ discount_source q = Some (promo_id promo) /\
        cp_price q = cp_price p /\ cp_stock_quantity q = cp_stock_quantity p) /\
     (~ In k perf_ids -> source_is promo p = true ->
      exists q, perfumes (fst res) !! k = Some q /\ neutral_discount q = true) /\
     (~ In k perf_ids -> source_is promo p = false -> perfumes (fst res) !! k = Some p)) /\
    (pigments cat !! k = Some p ->
     (In k pigm_ids ->
      exists q, pigments (fst res) !! k = Some q /\
        cp_discount_percentage q = pct /\ cp_discount_price q = dp /\
        cp_discount_start_date q = Some (match start with Some s => s | None => now end) /\
        cp_discount_end_date q = end_ /\ discount_source q = Some (promo_id promo) /\
        cp_price q = cp_price p /\ cp_stock_quantity q = cp_stock_quantity p) /\
     (~ In k pigm_ids -> source_is promo p = true ->
      exists q, pigments (fst res) !! k = Some q /\ neutral_discount q = true) /\
     (~ In k pigm_ids -> source_is promo p = false -> pigments (fst res) !! k = Some p)).
Proof.
  intros res. subst res. unfold update_promo, clear_discounts, apply_discounts. simpl.
  split; [reflexivity|].
  intros k p. split; intro Hk.
  - erewrite (update_promo_table promo _ now _ perf_ids k p); [|exact Hman|exact Hk].
    split; [|split].
    + intro Hin. apply existsb_eqb_In in Hin. rewrite Hin.
      eexists. split; [reflexivity|]. simpl.
      repeat split; destruct (source_is promo p); try reflexivity;
        destruct start; reflexivity.
    + intros Hin Hs. rewrite <- existsb_eqb_In in Hin. apply not_true_is_false in Hin.
      rewrite Hin, Hs. eexists. split; [reflexivity|]. reflexivity.
    + intros Hin Hs. rewrite <- existsb_eqb_In in Hin. apply not_true_is_false in Hin.
      rewrite Hin, Hs. reflexivity.
  - erewrite (update_promo_table promo _ now _ pigm_ids k p); [|exact Hman|exact Hk].
    split; [|split].
    + intro Hin. apply existsb_eqb_In in Hin. rewrite Hin.
      eexists. split; [reflexivity|]. simpl.
      repeat split; destruct (source_is promo p); try reflexivity;
        destruct start; reflexivity.
    + intros Hin Hs. rewrite <- existsb_eqb_In in Hin. apply not_true_is_false in Hin.
      rewrite Hin, Hs. eexists. split; [reflexivity|]. reflexivity.
    + intros Hin Hs. rewrite <- existsb_eqb_In in Hin. apply not_true_is_false in Hin.
      rewrite Hin, Hs. reflexivity.
Qed.

(** Witness: promotion 10 on perfumes 1 and 2 is edited to perfume 2 only. *)
Lemma update_promo_reapplies_witness :
  let A := mkPromotion 10 promo_manual None None 20 None None None [1; 2] [] true in
  let p := mkCatalogProduct 1 1 100 5 0 None None None None in
  let cat := fst (apply_discounts A 3 (mkCatalog (<[1:=p]> (<[2:=p]> ∅)) ∅)) in
  promo_type A = promo_manual /\
  exists q, perfumes (fst (update_promo A 5 cat 30 None None None [2] [])) !! 1 = Some q /\
            neutral_discount q = true.
Proof.
  intros A p cat. split; [reflexivity|].
  destruct (update_promo_reapplies A 5 cat 30 None None None [2] [] eq_refl) as [_ H].
  destruct (H 1 (apply_to A 3 p)) as [Hp _].
  destruct (Hp eq_refl) as (_ & Hdrop & _).
  apply Hdrop; [simpl; lia|reflexivity].
Defined.

(** [apply_discounts] overwrites: applying a promotion again at a later
    time gives the same catalogue as applying it once at that time, the
    earlier application leaves no trace. *)
Theorem apply_discounts_overwrites (promo : Promotion) (now1 now2 : Z) (cat : Catalog) :
  apply_discounts promo now2 (fst (apply_discounts promo now1 cat)) =
  apply_discounts promo now2 cat.
Proof.
  unfold apply_discounts. simpl. f_equal. f_equal; apply map_eq; intro k;
    rewrite !apply_table_lookup; destruct (_ !! k) as [p|]; simpl; try reflexivity;
    destruct (in_queryset promo _ k p) eqn:E; simpl;
    rewrite ?in_queryset_apply_to, ?E; reflexivity.
Qed.

Import Checkout.

Lemma prepare_lines_spec (st : Store) (now : Z) (items : list (Z * Z)) (ls : list Prepared) :
  prepare_lines st now items = inr ls ->
  Forall2 (fun it (l : Prepared) =>
    let '(oi, (ci_id, ci), (r, prod)) := l in
    ci_id = fst it /\ oi_quantity oi = snd it /\ st_cart st !! ci_id = Some ci /\
    r = product ci /\ get_product st r = Some prod /\
    oi_quantity oi <= quantity ci /\ oi_quantity oi <= stock_quantity prod) items ls.
Proof.
  revert ls. induction items as [|[ci_id qty] rest IH]; intros ls H; simpl in H.
  - injection H as <-. constructor.
  - destruct (st_cart st !! ci_id) as [ci|] eqn:Eci; [|discriminate].
    destruct (prepare_line st now ci_id ci qty) as [e|l] eqn:El; [discriminate|].
    destruct (prepare_lines st now rest) as [e|ls'] eqn:Er; [discriminate|].
    injection H as <-. constructor; [|apply IH; reflexivity].
    unfold prepare_line in El.
    destruct (get_product st (product ci)) as [prod|] eqn:Ep; [|discriminate].
    rewrite Z.gtb_ltb in El.
    destruct (Z.ltb_spec (quantity ci) qty); [discriminate|].
    destruct (in_stock prod); simpl in El; [|discriminate].
    destruct (Z.ltb_spec (stock_quantity prod) qty); [discriminate|].
    injection El as <-. simpl. repeat split; auto.
Qed.

Lemma prepare_lines_not_empty (st : Store) (now : Z) (items : list (Z * Z)) :
  prepare_lines st now items <> inl ErrEmptyCart.
Proof.
  induction items as [|[ci_id qty] rest IH]; simpl; [discriminate|].
  destruct (st_cart st !! ci_id) as [ci|]; [|discriminate].
  destruct (prepare_line st now ci_id ci qty) as [e|l] eqn:El.
  - unfold prepare_line in El. destruct (get_product st (product ci)) as [p|]; [|congruence].
    destruct (qty >? quantity ci); [injection El as <-; discriminate|].
    destruct (negb (in_stock p)); [injection El as <-; discriminate|].
    destruct (stock_quantity p <? qty); [injection El as <-; discriminate|discriminate].
  - destruct (prepare_lines st now rest); [|discriminate]. congruence.
Qed.

(** [create] answers "order cannot be empty" exactly when the posted
    [items] list is empty, or when it is absent and the user's cart has no
    line; no other input produces that error. *)
Theorem checkout_empty_cart (st : Store) (now : Z) :
  checkout st now (Some []) = inl ErrEmptyCart /\
  (checkout st now None = inl ErrEmptyCart <-> st_cart st = ∅) /\
  (forall items, items <> [] -> checkout st now (Some items) <> inl ErrEmptyCart).
Proof.
  split; [reflexivity|]. split.
  - unfold checkout. split.
    + destruct (map_to_list (st_cart st)) as [|x xs] eqn:E.
      * intros _. apply map_to_list_empty_iff. exact E.
      * cbn [map]. destruct x as [i ci]. pose proof (prepare_lines_not_empty st now
          ((i, quantity ci) :: map (fun '(i, ci) => (i, quantity ci)) xs)) as H.
        intro Hc. destruct (prepare_lines _ _ _); [congruence|discriminate Hc].
    + intro H. rewrite H, map_to_list_empty. reflexivity.
  - intros items Hne. unfold checkout. destruct items as [|it rest]; [congruence|].
    pose proof (prepare_lines_not_empty st now (it :: rest)) as H.
    intro Hc. destruct (prepare_lines _ _ _); [congruence|discriminate Hc].
Qed.

Lemma get_product_put (st : Store) (r r' : ProductRef) (p p' : ProductRow) :
  get_product (put_product st r p) r' = Some p' -> p' = p \/ get_product st r' = Some p'.
Proof.
  destruct r as [i|i], r' as [j|j]; simpl; try (intro H; right; exact H);
    rewrite lookup_insert; destruct (decide (i = j)); intro H;
    [left; congruence|right; exact H|left; congruence|right; exact H].
Qed.

Lemma get_product_put_cart (st : Store) (c : gmap Z CartItem) (r : ProductRef) :
  get_product (put_cart st c) r = get_product st r.
Proof. destruct r; reflexivity. Qed.

Lemma st_cart_put_product (st : Store) (r : ProductRef) (p : ProductRow) :
  st_cart (put_product st r p) = st_cart st.
Proof. destruct r; reflexivity. Qed.

Lemma apply_line_get (st : Store) (l : Prepared) (r' : ProductRef) (p' : ProductRow) :
  get_product (apply_line st l) r' = Some p' ->
  get_product st r' = Some p' \/
  (let '(oi, _, (_, prod)) := l in
   stock_quantity p' = stock_quantity prod - oi_quantity oi /\
   (stock_quantity p' = 0 -> in_stock p' = false)).
Proof.
  destruct l as [[oi [ci_id ci]] [r prod]]. unfold apply_line.
  intro H. destruct (_ <=? 0); rewrite get_product_put_cart in H;
    (apply get_product_put in H as [->|H]; [right|left; exact H]); simpl;
    (split; [reflexivity|]); intro Hz; rewrite Hz; reflexivity.
Qed.

(** Checkout keeps the product rows consistent: if every perfume and
    pigment row has a non-negative stock and is marked out of stock when
    its stock is 0, a successful checkout leaves every row so (a row it
    decrements to 0 is marked out of stock). *)
Theorem checkout_stock_invariant (st : Store) (now : Z) (items : option (list (Z * Z)))
  (subtotal : Q) (ois : list OrderItem) (st' : Store)
  (Hinv : forall r p, get_product st r = Some p ->
          0 <= stock_quantity p /\ (stock_quantity p = 0 -> in_stock p = false))
  (Hok : checkout st now items = inr (subtotal, ois, st')) :
  forall r p, get_product st' r = Some p ->
    0 <= stock_quantity p /\ (stock_quantity p = 0 -> in_stock p = false).
Proof.
  unfold checkout in Hok.
  set (its := match items with Some l => l | None => _ end) in Hok.
  destruct its as [|it rest]; [discriminate|].
  destruct (prepare_lines st now (it :: rest)) as [e|ls] eqn:Els; [discriminate|].
  injection Hok as _ _ <-.
  apply prepare_lines_spec in Els.
  assert (Hls : Forall (fun l : Prepared => let '(oi, _, (_, prod)) := l in
                          oi_quantity oi <= stock_quantity prod) ls).
  { clear Hinv. induction Els as [|x l xs ls' R _ IH]; constructor; [|exact IH].
    destruct l as [[oi [ci_id ci]] [r prod]]. apply R. }
  clear Els. revert st Hinv. induction Hls as [|l ls Hl _ IH]; intros st Hinv; simpl.
  - exact Hinv.
  - apply IH. intros r p Hp. apply apply_line_get in Hp as [Hp|Hp]; [exact (Hinv r p Hp)|].
    destruct l as [[oi [ci_id ci]] [r0 prod]]. destruct Hp as [Hs Hz].
    split; [lia|exact Hz].
Qed.

(** Witness: one perfume with stock 2, the whole cart (2 units) checked
    out. *)
Lemma checkout_stock_invariant_witness :
  let st := mkStore
    (<[1 := mkProductRow "Rose" "R-1" 2 true (Pricing.mkProduct 100 0 None None None)]> ∅)
    ∅ ∅ ∅ (<[3 := mkCartItem (RPerfume 1) None None 2]> ∅) in
  (forall r p, get_product st r = Some p ->
     0 <= stock_quantity p /\ (stock_quantity p = 0 -> in_stock p = false)) /\
  match checkout st 0 None with
  | inr (_, _, st') =>
      forall r p, get_product st' r = Some p ->
        0 <= stock_quantity p /\ (stock_quantity p = 0 -> in_stock p = false)
  | inl _ => False
  end.
Proof.
  intros st.
  assert (Hinv : forall r p, get_product st r = Some p ->
            0 <= stock_quantity p /\ (stock_quantity p = 0 -> in_stock p = false)).
  { intros [i|i] p H; simpl in H.
    - rewrite lookup_insert in H. destruct (decide (1 = i)); [|rewrite lookup_empty in H; discriminate].
      injection H as <-. simpl. split; [lia|discriminate].
    - rewrite lookup_empty in H. discriminate. }
  split; [exact Hinv|].
  destruct (checkout st 0 None) as [e|[[sub ois] st']] eqn:E; [vm_compute in E; discriminate|].
  exact (checkout_stock_invariant st 0 None sub ois st' Hinv E).
Defined.

Lemma Forall2_In_l {A B} (R : A -> B -> Prop) (xs : list A) (ys : list B) (x : A) :
  Forall2 R xs ys -> In x xs -> exists y, In y ys /\ R x y.
Proof.
  induction 1 as [|a b xs' ys' Hr _ IH]; [contradiction|].
  intros [<-|Hx]; [exists b; split; [left; reflexivity|exact Hr]|].
  destruct (IH Hx) as [y [Hy Hry]]. exists y. split; [right; exact Hy|exact Hry].
Qed.

Lemma Forall2_Forall_r {A B} (R : A -> B -> Prop) (P : B -> Prop) (xs : list A) (ys : list B) :
  Forall2 R xs ys -> (forall x y, In x xs -> R x y -> P y) -> Forall P ys.
Proof.
  induction 1 as [|a b xs' ys' Hr _ IH]; intro H; constructor.
  - apply (H a b); [left; reflexivity|exact Hr].
  - apply IH. intros x y Hx. apply H. right. exact Hx.
Qed.

Lemma fold_apply_line_cart (ls : list Prepared) (st : Store) :
  Forall (fun l : Prepared => let '(oi, (_, ci), _) := l in
            quantity ci - oi_quantity oi <= 0) ls ->
  st_cart (fold_left apply_line ls st) =
  fold_left (fun c (l : Prepared) => delete (fst (snd (fst l))) c) ls (st_cart st).
Proof.
  intro H. revert st. induction H as [|l ls Hl _ IH]; intro st; simpl; [reflexivity|].
  rewrite IH. f_equal.
  destruct l as [[oi [ci_id ci]] [r prod]]. unfold apply_line. simpl.
  apply Z.leb_le in Hl. rewrite Hl. simpl. rewrite st_cart_put_product. reflexivity.
Qed.

Lemma fold_delete_all {X} (g : X -> Z) (xs : list X) :
  forall m : gmap Z CartItem,
  (forall k, m !! k <> None -> exists x, In x xs /\ g x = k) ->
  fold_left (fun c x => delete (g x) c) xs m = ∅.
Proof.
  induction xs as [|x xs IH]; intros m H; simpl.
  - apply map_empty. intro k. destruct (m !! k) eqn:E; [|reflexivity].
    destruct (H k ltac:(congruence)) as [y [[] _]].
  - apply IH. intros k Hk. rewrite lookup_delete in Hk.
    destruct (decide (g x = k)) as [Heq|Hne]; [contradiction|].
    destruct (H k Hk) as [y [[<-|Hy] Hg]]; [contradiction|].
    exists y. split; assumption.
Qed.

(** A checkout without an [items] list orders every cart line with its
    full quantity, and a successful one leaves the user's cart empty. *)
Theorem checkout_full_cart_empties (st : Store) (now : Z) (subtotal : Q)
  (ois : list OrderItem) (st' : Store)
  (Hok : checkout st now None = inr (subtotal, ois, st')) :
  st_cart st' = ∅.
Proof.
  unfold checkout in Hok.
  set (its := map (fun '(i, ci) => (i, quantity ci)) (map_to_list (st_cart st))) in Hok.
  assert (Hits : forall it, In it its ->
            exists ci, st_cart st !! fst it = Some ci /\ snd it = quantity ci).
  { intros it Hin. unfold its in Hin. apply in_map_iff in Hin as [[i ci] [<- Hin]].
    exists ci. split; [|reflexivity]. simpl.
    apply elem_of_map_to_list. apply list_elem_of_In. exact Hin. }
  destruct its as [|it0 rest] eqn:Eits; [discriminate|].
  rewrite <- Eits in Hok, Hits.
  destruct (prepare_lines st now its) as [e|ls] eqn:Els; [destruct its; discriminate|].
  assert (Hok' : fold_left apply_line ls st = st').
  { destruct its; [discriminate|]. injection Hok as _ _ <-. reflexivity. }
  subst st'. apply prepare_lines_spec in Els.
  rewrite fold_apply_line_cart.
  - apply fold_delete_all. intros k Hk.
    destruct (st_cart st !! k) as [ci|] eqn:Eci; [|contradiction].
    assert (Hin : In (k, quantity ci) its).
    { unfold its. apply in_map_iff. exists (k, ci). split; [reflexivity|].
      apply list_elem_of_In. apply elem_of_map_to_list. exact Eci. }
    destruct (Forall2_In_l _ _ _ _ Els Hin) as [l [Hl R]].
    exists l. split; [exact Hl|].
    destruct l as [[oi [ci_id ci']] [r prod]]. simpl. apply R.
  - apply (Forall2_Forall_r _ _ _ _ Els). intros it l Hin R.
    destruct l as [[oi [ci_id ci]] [r prod]].
    destruct R as (-> & Hq & Hc & _).
    destruct (Hits it Hin) as [ci' [Hc' Hq']]. rewrite Hc in Hc'. injection Hc' as <-.
    lia.
Qed.

(** Witness: the whole cart of one perfume line checked out. *)
Lemma checkout_full_cart_empties_witness :
  let st := mkStore
    (<[1 := mkProductRow "Rose" "R-1" 2 true (Pricing.mkProduct 100 0 None None None)]> ∅)
    ∅ ∅ ∅ (<[3 := mkCartItem (RPerfume 1) None None 1]> ∅) in
  match checkout st 0 None with
  | inr (_, _, st') => st_cart st' = ∅
  | inl _ => False
  end.
Proof.
  intros st.
  destruct (checkout st 0 None) as [e|[[sub ois] st']] eqn:E; [vm_compute in E; discriminate|].
  exact (checkout_full_cart_empties st 0 sub ois st' E).
Defined.







(** [Order.save] never debits the loyalty account: whatever the order and
    the status change, the balance and [lifetime_earned] after the save
    are at least what they were (cancelling an order whose points were
    awarded does not take them back). *)
Theorem order_save_never_debits (o : Settlement.Order) (w : World) :
  (balance (get_or_create_account w) <= balance (get_or_create_account (snd (order_save o w))))%Z /\
  (lifetime_earned (get_or_create_account w) <=
     lifetime_earned (get_or_create_account (snd (order_save o w))))%Z.
Proof.
  unfold order_save, recompute_total, set_amounts, get_or_create_account.
  destruct (db_order w); simpl; destruct (account w); simpl;
    destruct (Settlement.status o); simpl;
    destruct (0 <? loyalty_points_used o) eqn:Hu; simpl;
    case_ifs;
    repeat match goal with H : (_ <? _) = true |- _ => apply Z.ltb_lt in H end;
    lia.
Qed.

(** [_product_queryset] of a brand promotion with no brand, of a category
    promotion with no category, or of an [all] promotion: the filter is
    skipped, and [apply_discounts] writes the promotion's discount into
    every perfume and every pigment. *)
Theorem apply_discounts_unfiltered (promo : Promotion) (now : Z) (cat : Catalog)
  (Hall : (promo_type promo = promo_brand /\ promo_brand_id promo = None) \/
          (promo_type promo = promo_category /\ promo_category_id promo = None) \/
          promo_type promo = promo_all) :
  forall k p,
    (perfumes cat !! k = Some p ->
     perfumes (fst (apply_discounts promo now cat)) !! k = Some (apply_to promo now p)) /\
    (pigments cat !! k = Some p ->
     pigments (fst (apply_discounts promo now cat)) !! k = Some (apply_to promo now p)).
Proof.
  assert (Hq : forall members k p, in_queryset promo members k p = true).
  { intros members k p. unfold in_queryset.
    destruct Hall as [[-> ->]|[[-> ->]| ->]]; reflexivity. }
  intros k p. simpl. split; intro Hk; rewrite apply_table_lookup, Hk; simpl;
    rewrite Hq; reflexivity.
Qed.

(** Witness: a brand promotion saved without a brand. *)
Lemma apply_discounts_unfiltered_witness :
  let promo := mkPromotion 10 promo_brand None None 15 None None None [] [] false in
  let p := mkCatalogProduct 4 2 100 5 0 None None None None in
  let cat := mkCatalog (<[1 := p]> ∅) ∅ in
  ((promo_type promo = promo_brand /\ promo_brand_id promo = None) \/
   (promo_type promo = promo_category /\ promo_category_id promo = None) \/
   promo_type promo = promo_all) /\
  perfumes (fst (apply_discounts promo 3 cat)) !! 1 = Some (apply_to promo 3 p).
Proof.
  intros promo p cat.
  assert (H : (promo_type promo = promo_brand /\ promo_brand_id promo = None) \/
              (promo_type promo = promo_category /\ promo_category_id promo = None) \/
              promo_type promo = promo_all) by (left; split; reflexivity).
  split; [exact H|].
  exact (proj1 (apply_discounts_unfiltered promo 3 cat H 1 p) eq_refl).
Defined.

(** Promotions never touch prices, stock, brands or categories: after
    [apply_discounts] or [clear_discounts], every perfume and pigment row
    keeps these columns. *)
Theorem promotion_keeps_price_stock (promo : Promotion) (now : Z) (cat : Catalog) (k : Z) :
  let keep := fun p => (brand p, category p, cp_price p, cp_stock_quantity p) in
  option_map keep (perfumes (fst (apply_discounts promo now cat)) !! k) =
    option_map keep (perfumes cat !! k) /\
  option_map keep (pigments (fst (apply_discounts promo now cat)) !! k) =
    option_map keep (pigments cat !! k) /\
  option_map keep (perfumes (fst (clear_discounts promo cat)) !! k) =
    option_map keep (perfumes cat !! k) /\
  option_map keep (pigments (fst (clear_discounts promo cat)) !! k) =
    option_map keep (pigments cat !! k).
Proof.
  intros keep. simpl. rewrite !apply_table_lookup, !clear_table_lookup.
  repeat split; [destruct (perfumes cat !! k) as [p|]|destruct (pigments cat !! k) as [p|]
                |destruct (perfumes cat !! k) as [p|]|destruct (pigments cat !! k) as [p|]];
    simpl; try reflexivity;
    first [destruct (in_queryset _ _ k p) | destruct (source_is promo p)]; reflexivity.
Qed.
